(** * EX-Installer: navigation controller and EX-Turntable directive pipeline

  A shallow embedding of two pieces of the installer:

  - [EXTurntable.set_product_version] and [EXTurntable.generate_config]
    (ex_installer/ex_turntable.py): the version gate of the configuration
    screen and the validation / directive emission pass that produces
    config.h;
  - [EXInstaller.switch_view] (ex_installer/ex_installer.py): the view
    switcher with its instance cache.

  The widget toolkit, the file manager and the git client are outside the
  modelled code; what the code needs from them is either a parameter or a
  small model that says so in its comment. *)

From Stdlib Require Import ZArith Ascii String List Bool Lia.
From Stdlib Require Import DecimalString DecimalPos DecimalZ Sorted.
From stdpp Require Import gmap strings list fin_maps functions.

Local Open Scope Z_scope.

(** ** Python values used by both classes *)

(** Exceptions that can leave the modelled methods. *)
Inductive exn : Type :=
| ValueError
| TypeError
| KeyError
| UnboundLocalError.

(** Outcome of a call that may raise. *)
Inductive result (A : Type) : Type :=
| OK (a : A)
| Raise (e : exn).
Arguments OK {A} a.
Arguments Raise {A} e.

Definition rbind {A B : Type} (r : result A) (k : A -> result B) : result B :=
match r with
| OK a => k a
| Raise e => Raise e
end.

(** Statements of a method applied one after the other. *)
Notation "x |> f" := (f x) (at level 71, left associativity, only parsing).

#[global] Instance result_ret : MRet result := fun A a => OK a.
#[global] Instance result_bind : MBind result := fun A B k r => rbind r k.

Module PyStr.

(** The one-character string made of a line feed, Python's ["\n"]. *)
Definition nl : string := String (ascii_of_nat 10) EmptyString.

(** U+00B2 SUPERSCRIPT TWO in UTF-8, written ["²"] in the source. *)
Definition sup2 : string :=
  String (ascii_of_nat 194) (String (ascii_of_nat 178) EmptyString).

(** [str.startswith]. *)
Fixpoint startswith (p s : string) : bool :=
  match p, s with
  | EmptyString, _ => true
  | String a p', String b s' => Ascii.eqb a b && startswith p' s'
  | String _ _, EmptyString => false
  end.

(** [needle in hay] on strings. *)
Fixpoint contains (needle hay : string) : bool :=
  startswith needle hay ||
  match hay with
  | EmptyString => false
  | String _ hay' => contains needle hay'
  end.

(** [sep.join(l)]. *)
Definition join (sep : string) (l : list string) : string :=
  String.concat sep l.

(** [str(x)] for a value that may be [None], as an f-string prints it. *)
Definition str_of_option (o : option string) : string :=
  match o with
  | Some s => s
  | None => "None"
  end.

(** *** [int(s)] for a [str] argument, base 10

    Surrounding white space is dropped, one sign is allowed, and the
    digits may be separated by single underscores.  Any other text makes
    [int] raise [ValueError], which is [None] here.  The white space
    of [int] on ASCII text is the tab, the line feed, the vertical tab,
    the form feed, the carriage return and the blank (codes 9 to 13 and
    32); the separators 28 to 31, which [str.strip] drops, are not
    dropped by [int].

    The model reads ASCII text.  Python also takes the decimal digits
    and the white space of other scripts, and recent interpreters refuse
    a literal of more than 4300 digits; on the texts that [plain] below
    singles out neither matters, and [py_int] is [int]. *)

Definition is_space (c : ascii) : bool :=
  let n := nat_of_ascii c in
  (Nat.leb 9 n && Nat.leb n 13) || Nat.eqb n 32.

Definition digit_val (c : ascii) : option Z :=
  let n := Z.of_nat (nat_of_ascii c) in
  if (48 <=? n) && (n <=? 57) then Some (n - 48) else None.

Fixpoint lstrip (l : list ascii) : list ascii :=
  match l with
  | c :: l' => if is_space c then lstrip l' else l
  | [] => []
  end.

Definition strip (l : list ascii) : list ascii :=
  rev (lstrip (rev (lstrip l))).

(** [prev_digit] records that the previous character was a digit, the only
    place where an underscore or the end of the literal may follow. *)
Fixpoint parse_digits (l : list ascii) (acc : Z) (prev_digit : bool) : option Z :=
  match l with
  | [] => if prev_digit then Some acc else None
  | c :: l' =>
      match digit_val c with
      | Some d => parse_digits l' (10 * acc + d) true
      | None =>
          if Ascii.eqb c "_" && prev_digit
          then parse_digits l' acc false
          else None
      end
  end.

Definition py_int (s : string) : option Z :=
  match strip (list_ascii_of_string s) with
  | c :: l' =>
      if Ascii.eqb c "+" then parse_digits l' 0 false
      else if Ascii.eqb c "-" then Z.opp <$> parse_digits l' 0 false
      else parse_digits (c :: l') 0 false
  | [] => None
  end.

(** The texts on which [int] is the same function in every interpreter,
    and is [py_int]: ASCII characters only, and no more of them than the
    4300 digits a literal may have. *)
Definition plain (s : string) : bool :=
  forallb (fun c => Nat.ltb (nat_of_ascii c) 128) (list_ascii_of_string s)
  && Nat.leb (String.length s) 4300.

End PyStr.

(** ** The parts of the widget toolkit the screen reads and writes *)

Module Tk.

(** The [state] option of a widget. *)
Inductive tk_state : Type := normal | disabled.

Definition tk_state_eqb (a b : tk_state) : bool :=
  match a, b with
  | normal, normal | disabled, disabled => true
  | _, _ => false
  end.

(** A [CTkSwitch]: its two values, whether it is switched on, and its
    [state] option. *)
Record CTkSwitch : Type := {
  onvalue : string;
  offvalue : string;
  check_state : bool;
  state : tk_state
}.

Definition new_switch (on off : string) : CTkSwitch :=
  {| onvalue := on; offvalue := off; check_state := false; state := normal |}.

(** [switch.get()] *)
Definition get (w : CTkSwitch) : string :=
  if check_state w then onvalue w else offvalue w.

(** [switch.cget("state")] *)
Definition cget_state (w : CTkSwitch) : tk_state := state w.

(** [switch.select()] and [switch.deselect()], read as the source uses
    them: the switch ends up on, respectively off.  customtkinter ignores
    both calls on a disabled switch; that guard is not represented, and
    the two readings differ only on a switch that is both on and
    disabled. *)
Definition select (w : CTkSwitch) : CTkSwitch :=
  {| onvalue := onvalue w; offvalue := offvalue w;
     check_state := true; state := state w |}.

Definition deselect (w : CTkSwitch) : CTkSwitch :=
  {| onvalue := onvalue w; offvalue := offvalue w;
     check_state := false; state := state w |}.

(** [switch.configure(state=st)] *)
Definition configure_state (st : tk_state) (w : CTkSwitch) : CTkSwitch :=
  {| onvalue := onvalue w; offvalue := offvalue w;
     check_state := check_state w; state := st |}.

End Tk.


(** ** ex_turntable.py: the EX-Turntable configuration screen *)

Module EXTurntable.
Import PyStr Tk.

(** The switches of the screen, under the attribute names of the class. *)
Inductive switch_id : Type :=
| mode_switch | sensor_test_switch | home_switch | limit_switch
| relay_switch | auto_switch | disable_idle_switch
| invert_dir_switch | invert_step_switch | invert_enable_switch
| forward_only_switch | reverse_only_switch
| led_fast_switch | led_slow_switch | debug_switch
| sanity_steps_switch | home_sensitivity_switch
| full_step_count_switch | debounce_delay_switch
| advanced_config_enabled.

(** The [StringVar]s behind the entries. *)
Inductive var_id : Type :=
| i2c_address | phase_angle | gearing | speed | accel
| led_fast | led_slow | sanity_steps | home_sensitivity
| full_step_count | debounce_delay.

(** Labels and entries of which the code only touches the [state] option. *)
Inductive entry_id : Type :=
| gearing_label | gearing_entry | phase_angle_entry.

#[global] Instance switch_id_eq_dec : EqDecision switch_id.
Proof. solve_decision. Defined.
#[global] Instance var_id_eq_dec : EqDecision var_id.
Proof. solve_decision. Defined.
#[global] Instance entry_id_eq_dec : EqDecision entry_id.
Proof. solve_decision. Defined.

(** The attributes of an [EXTurntable] instance that [set_product_version],
    the switch callbacks and [generate_config] read or write.  The version
    attributes come from the base class and are [None] until a version is
    set, as the docstring of [switch_view] states. *)
Record screen : Type := {
  app_version : string;
  product : string;
  product_name : string;
  ex_turntable_dir : string;
  product_version_name : option string;
  product_major_version : option Z;
  product_minor_version : option Z;
  product_patch_version : option Z;
  stepper_list : list string;
  stepper_combo : string;
  switches : switch_id -> CTkSwitch;
  vars : var_id -> string;
  entries : entry_id -> tk_state
}.

Definition set_product_version_name (v : option string) (s : screen) : screen :=
  {| app_version := app_version s; product := product s;
     product_name := product_name s; ex_turntable_dir := ex_turntable_dir s;
     product_version_name := v;
     product_major_version := product_major_version s;
     product_minor_version := product_minor_version s;
     product_patch_version := product_patch_version s;
     stepper_list := stepper_list s; stepper_combo := stepper_combo s;
     switches := switches s; vars := vars s; entries := entries s |}.

Definition set_product_major_version (v : option Z) (s : screen) : screen :=
  {| app_version := app_version s; product := product s;
     product_name := product_name s; ex_turntable_dir := ex_turntable_dir s;
     product_version_name := product_version_name s;
     product_major_version := v;
     product_minor_version := product_minor_version s;
     product_patch_version := product_patch_version s;
     stepper_list := stepper_list s; stepper_combo := stepper_combo s;
     switches := switches s; vars := vars s; entries := entries s |}.

Definition set_product_minor_version (v : option Z) (s : screen) : screen :=
  {| app_version := app_version s; product := product s;
     product_name := product_name s; ex_turntable_dir := ex_turntable_dir s;
     product_version_name := product_version_name s;
     product_major_version := product_major_version s;
     product_minor_version := v;
     product_patch_version := product_patch_version s;
     stepper_list := stepper_list s; stepper_combo := stepper_combo s;
     switches := switches s; vars := vars s; entries := entries s |}.

Definition set_product_patch_version (v : option Z) (s : screen) : screen :=
  {| app_version := app_version s; product := product s;
     product_name := product_name s; ex_turntable_dir := ex_turntable_dir s;
     product_version_name := product_version_name s;
     product_major_version := product_major_version s;
     product_minor_version := product_minor_version s;
     product_patch_version := v;
     stepper_list := stepper_list s; stepper_combo := stepper_combo s;
     switches := switches s; vars := vars s; entries := entries s |}.

Definition set_stepper_list (v : list string) (s : screen) : screen :=
  {| app_version := app_version s; product := product s;
     product_name := product_name s; ex_turntable_dir := ex_turntable_dir s;
     product_version_name := product_version_name s;
     product_major_version := product_major_version s;
     product_minor_version := product_minor_version s;
     product_patch_version := product_patch_version s;
     stepper_list := v; stepper_combo := stepper_combo s;
     switches := switches s; vars := vars s; entries := entries s |}.

Definition set_stepper_combo (v : string) (s : screen) : screen :=
  {| app_version := app_version s; product := product s;
     product_name := product_name s; ex_turntable_dir := ex_turntable_dir s;
     product_version_name := product_version_name s;
     product_major_version := product_major_version s;
     product_minor_version := product_minor_version s;
     product_patch_version := product_patch_version s;
     stepper_list := stepper_list s; stepper_combo := v;
     switches := switches s; vars := vars s; entries := entries s |}.

Definition set_switches (v : switch_id -> CTkSwitch) (s : screen) : screen :=
  {| app_version := app_version s; product := product s;
     product_name := product_name s; ex_turntable_dir := ex_turntable_dir s;
     product_version_name := product_version_name s;
     product_major_version := product_major_version s;
     product_minor_version := product_minor_version s;
     product_patch_version := product_patch_version s;
     stepper_list := stepper_list s; stepper_combo := stepper_combo s;
     switches := v; vars := vars s; entries := entries s |}.

Definition set_vars (v : var_id -> string) (s : screen) : screen :=
  {| app_version := app_version s; product := product s;
     product_name := product_name s; ex_turntable_dir := ex_turntable_dir s;
     product_version_name := product_version_name s;
     product_major_version := product_major_version s;
     product_minor_version := product_minor_version s;
     product_patch_version := product_patch_version s;
     stepper_list := stepper_list s; stepper_combo := stepper_combo s;
     switches := switches s; vars := v; entries := entries s |}.

Definition set_entries (v : entry_id -> tk_state) (s : screen) : screen :=
  {| app_version := app_version s; product := product s;
     product_name := product_name s; ex_turntable_dir := ex_turntable_dir s;
     product_version_name := product_version_name s;
     product_major_version := product_major_version s;
     product_minor_version := product_minor_version s;
     product_patch_version := product_patch_version s;
     stepper_list := stepper_list s; stepper_combo := stepper_combo s;
     switches := switches s; vars := vars s; entries := v |}.

(** [self.<w>.get()] on a switch and on a [StringVar], [cget("state")] on a
    switch and on an entry. *)
Definition sw (s : screen) (w : switch_id) : string := get (switches s w).
Definition sw_state (s : screen) (w : switch_id) : tk_state :=
  cget_state (switches s w).
Definition var (s : screen) (v : var_id) : string := vars s v.
Definition entry_state (s : screen) (e : entry_id) : tk_state := entries s e.

(** [self.<w>.<method>()] for a method that changes the switch. *)
Definition on_switch (w : switch_id) (f : CTkSwitch -> CTkSwitch) (s : screen) : screen :=
  set_switches (alter f w (switches s)) s.

(** [self.<v>.set(x)] on a [StringVar]. *)
Definition var_set (v : var_id) (x : string) (s : screen) : screen :=
  set_vars (<[v := x]> (vars s)) s.

(** [self.<e>.configure(state=st)] on a label or an entry. *)
Definition entry_configure (e : entry_id) (st : tk_state) (s : screen) : screen :=
  set_entries (<[e := st]> (entries s)) s.

(** The file manager ([file_manager.py], outside the modelled code), as the
    three calls the screen makes.  [write_config_file] returns the path it
    was given when the write succeeded and an error text otherwise. *)
Record FileManager : Type := {
  get_filepath : string -> string -> string;
  get_list_from_file : string -> string -> list string;
  write_config_file : string -> list string -> string
}.

(** *** Switch callbacks *)

(** [set_mode]: in traverser mode the two rotation switches are switched off
    and disabled; fonts and colours are left out. *)
Definition set_mode (s : screen) : screen :=
  if String.eqb (sw s mode_switch) "TURNTABLE" then
    s |> on_switch limit_switch (configure_state disabled)
      |> on_switch forward_only_switch (configure_state normal)
      |> on_switch reverse_only_switch (configure_state normal)
  else
    s |> on_switch limit_switch (configure_state normal)
      |> on_switch forward_only_switch deselect
      |> on_switch forward_only_switch (configure_state disabled)
      |> on_switch reverse_only_switch deselect
      |> on_switch reverse_only_switch (configure_state disabled).

Definition set_phase_switching (s : screen) : screen :=
  if String.eqb (sw s auto_switch) "AUTO"
  then entry_configure phase_angle_entry normal s
  else entry_configure phase_angle_entry disabled s.

Definition set_forward_only (s : screen) : screen :=
  if String.eqb (sw s reverse_only_switch) "on"
  then on_switch reverse_only_switch deselect s
  else s.

Definition set_reverse_only (s : screen) : screen :=
  if String.eqb (sw s forward_only_switch) "on"
  then on_switch forward_only_switch deselect s
  else s.

(** [get_steppers]: the list read from standard_steppers.h replaces
    [stepper_list]; the value shown in the combo box is not touched. *)
Definition get_steppers (fm : FileManager) (s : screen) : screen :=
  let definition_file := get_filepath fm (ex_turntable_dir s) "standard_steppers.h" in
  let def_list := get_list_from_file fm definition_file "^#define\s(.+?)\sAccelStepper.*$" in
  set_stepper_list def_list s.

(** *** The state of the screen after [__init__]

    [setup_config_frame] creates the widgets with these values and then
    calls [set_mode]. *)
Definition initial_switches (w : switch_id) : CTkSwitch :=
  match w with
  | mode_switch => new_switch "TRAVERSER" "TURNTABLE"
  | auto_switch => select (new_switch "AUTO" "MANUAL")
  | relay_switch => select (new_switch "HIGH" "LOW")
  | home_switch | limit_switch => new_switch "HIGH" "LOW"
  | disable_idle_switch => select (new_switch "on" "off")
  | _ => new_switch "on" "off"
  end.

Definition initial_vars (v : var_id) : string :=
  match v with
  | i2c_address => "60"
  | phase_angle => "45"
  | gearing => "1"
  | speed => "200"
  | accel => "25"
  | led_fast => "100"
  | led_slow => "500"
  | sanity_steps => "10000"
  | home_sensitivity => "300"
  | full_step_count => "4096"
  | debounce_delay => "10"
  end.

Definition init (version name dir : string) : screen :=
  set_mode
    {| app_version := version;
       product := "ex_turntable";
       product_name := name;
       ex_turntable_dir := dir;
       product_version_name := None;
       product_major_version := None;
       product_minor_version := None;
       product_patch_version := None;
       stepper_list := [];
       stepper_combo := "Select stepper driver";
       switches := initial_switches;
       vars := initial_vars;
       entries := fun _ => normal |}.

(** *** [set_product_version] *)

(** [self.product_major_version == 0 and self.product_minor_version < m]:
    [==] accepts [None], [<] between [None] and an [int] raises [TypeError],
    and [and] does not evaluate its right operand when the left one is
    false. *)
Definition version_before (m : Z) (s : screen) : result bool :=
  match product_major_version s with
  | Some 0 =>
      match product_minor_version s with
      | Some minor => OK (minor <? m)
      | None => Raise TypeError
      end
  | _ => OK false
  end.

(** The three nested [if ... is not None] assignments. *)
Definition store_version (major minor patch : option Z) (s : screen) : screen :=
  match major with
  | None => s
  | Some _ =>
      let s := set_product_major_version major s in
      match minor with
      | None => s
      | Some _ =>
          let s := set_product_minor_version minor s in
          match patch with
          | None => s
          | Some _ => set_product_patch_version patch s
          end
      end
  end.

Definition set_product_version (fm : FileManager) (version : option string)
    (major minor patch : option Z) (s : screen) : result screen :=
  let s := s |> set_product_version_name version
             |> get_steppers fm
             |> store_version major minor patch in
  pre_0_6 ← version_before 6 s;
  let s :=
    if pre_0_6 : bool then
      s |> entry_configure gearing_label disabled
        |> entry_configure gearing_entry disabled
        |> var_set gearing "1"
    else
      s |> entry_configure gearing_label normal
        |> entry_configure gearing_entry normal in
  pre_0_7 ← version_before 7 s;
  OK (if pre_0_7 : bool then
        s |> on_switch invert_dir_switch deselect
          |> on_switch invert_dir_switch (configure_state disabled)
          |> on_switch invert_step_switch deselect
          |> on_switch invert_step_switch (configure_state disabled)
          |> on_switch invert_enable_switch deselect
          |> on_switch invert_enable_switch (configure_state disabled)
          |> on_switch forward_only_switch deselect
          |> on_switch forward_only_switch (configure_state disabled)
          |> on_switch reverse_only_switch deselect
          |> on_switch reverse_only_switch (configure_state disabled)
      else
        s |> on_switch invert_dir_switch (configure_state normal)
          |> on_switch invert_step_switch (configure_state normal)
          |> on_switch invert_enable_switch (configure_state normal)
          |> on_switch forward_only_switch (configure_state normal)
          |> on_switch reverse_only_switch (configure_state normal)).

(** *** [generate_config]

    The method fills two lists, [param_errors] and [config_list], one
    parameter after the other, and then either reports the errors or writes
    the file.  [acc] is the pair of lists; every block below is one [if] or
    [try] statement of the method, in the order of the source. *)
Record acc : Type := {
  param_errors : list string;
  config_list : list string
}.

Definition empty_acc : acc := {| param_errors := []; config_list := [] |}.

(** [param_errors.append(msg)] and [config_list.append(line)]. *)
Definition error (msg : string) (a : acc) : acc :=
  {| param_errors := param_errors a ++ [msg]; config_list := config_list a |}.

Definition emit (line : string) (a : acc) : acc :=
  {| param_errors := param_errors a; config_list := config_list a ++ [line] |}.

Definition i2c_message : string :=
  "I" +:+ sup2 +:+ "C address must be between 0x8 and 0x77".

(** Lines 770-774.  [int] is called outside any [try]: a text that is not an
    integer literal raises [ValueError] out of the method. *)
Definition gen_i2c_address (s : screen) (a : acc) : result acc :=
  match py_int (var s i2c_address) with
  | None => Raise ValueError
  | Some n =>
      if (n <? 8) || (77 <? n)
      then OK (error i2c_message a)
      else OK (emit ("#define I2C_ADDRESS 0x" +:+ var s i2c_address +:+ nl) a)
  end.

Definition gen_mode (s : screen) (a : acc) : acc :=
  emit ("#define TURNTABLE_EX_MODE " +:+ sw s mode_switch +:+ nl) a.

Definition gen_sensor_testing (s : screen) (a : acc) : acc :=
  if String.eqb (sw s sensor_test_switch) "on"
  then emit ("#define SENSOR_TESTING" +:+ nl) a
  else emit ("// #define SENSOR_TESTING" +:+ nl) a.

Definition gen_sensors_relay (s : screen) (a : acc) : acc :=
  a |> emit ("#define HOME_SENSOR_ACTIVE_STATE " +:+ sw s home_switch +:+ nl)
    |> emit ("#define LIMIT_SENSOR_ACTIVE_STATE " +:+ sw s limit_switch +:+ nl)
    |> emit ("#define RELAY_ACTIVE_STATE " +:+ sw s relay_switch +:+ nl)
    |> emit ("#define PHASE_SWITCHING " +:+ sw s auto_switch +:+ nl).

Definition gen_phase_angle (s : screen) (a : acc) : acc :=
  if String.eqb (sw s auto_switch) "AUTO" then
    match py_int (var s phase_angle) with
    | None => error "Phase switch angle must be between 0 and 180" a
    | Some n =>
        if (n <? 0) || (180 <? n)
        then error "Phase switch angle must be between 0 and 180" a
        else emit ("#define PHASE_SWITCH_ANGLE " +:+ var s phase_angle +:+ nl) a
    end
  else a.

Definition gen_stepper_driver (s : screen) (a : acc) : acc :=
  if String.eqb (stepper_combo s) "Select stepper driver"
  then error "You must select a stepper driver" a
  else emit ("#define STEPPER_DRIVER " +:+ stepper_combo s +:+ nl) a.

Definition gen_disable_idle (s : screen) (a : acc) : acc :=
  if String.eqb (sw s disable_idle_switch) "on"
  then emit ("#define DISABLE_OUTPUTS_IDLE" +:+ nl) a
  else a.

Definition gen_speed (s : screen) (a : acc) : acc :=
  match py_int (var s speed) with
  | None => error "You must provide a numeric speed value" a
  | Some n =>
      if (n <? 10) || (20000 <? n)
      then error "Speed must be between 10 and 20000" a
      else emit ("#define STEPPER_MAX_SPEED " +:+ var s speed +:+ nl) a
  end.

Definition gen_accel (s : screen) (a : acc) : acc :=
  match py_int (var s accel) with
  | None => error "You must provide a numeric acceleration value" a
  | Some n =>
      if (n <? 1) || (1000 <? n)
      then error "Acceleration must be between 1 and 1000" a
      else emit ("#define STEPPER_ACCELERATION " +:+ var s accel +:+ nl) a
  end.

Definition gen_gearing (s : screen) (a : acc) : acc :=
  if tk_state_eqb (entry_state s gearing_entry) normal then
    match py_int (var s gearing) with
    | None => error "You must provide a numeric gearing factor" a
    | Some n =>
        if (n <? 1) || (10 <? n)
        then error "Gearing factor must be between 1 and 10" a
        else emit ("#define STEPPER_GEARING_FACTOR " +:+ var s gearing +:+ nl) a
    end
  else a.

(** The three pin inversion switches share one shape. *)
Definition gen_invert (w : switch_id) (name : string) (s : screen) (a : acc) : acc :=
  if tk_state_eqb (sw_state s w) normal then
    if String.eqb (sw s w) "on"
    then emit ("#define " +:+ name +:+ nl) a
    else emit ("// #define " +:+ name +:+ nl) a
  else a.

(** The two rotation switches share one shape; [dir] is ["forward"] or
    ["reverse"] in the message. *)
Definition gen_rotate (w : switch_id) (name dir : string) (s : screen) (a : acc) : acc :=
  if tk_state_eqb (sw_state s w) normal then
    if String.eqb (sw s w) "on" then
      if String.eqb (sw s mode_switch) "TRAVERSER"
      then error ("Traverser mode is incompatible with " +:+ dir +:+ " only rotation") a
      else emit ("#define " +:+ name +:+ nl) a
    else emit ("// #define " +:+ name +:+ nl) a
  else a.

(** The advanced overrides share one shape: a switch, a [StringVar] that
    must be an integer literal when the switch is on, and the line written
    when it is off. *)
Definition gen_override (w : switch_id) (v : var_id) (name msg off_line : string)
    (s : screen) (a : acc) : acc :=
  if String.eqb (sw s w) "on" then
    match py_int (var s v) with
    | None => error msg a
    | Some _ => emit ("#define " +:+ name +:+ " " +:+ var s v +:+ nl) a
    end
  else emit (off_line +:+ nl) a.

Definition gen_debug (s : screen) (a : acc) : acc :=
  if String.eqb (sw s debug_switch) "on"
  then emit ("#define DEBUG" +:+ nl) a
  else emit ("// #define DEBUG" +:+ nl) a.

(** Lines 768-917: the state of the two lists when the method reaches
    [if len(param_errors) > 0]. *)
Definition validate (s : screen) : result acc :=
  a ← gen_i2c_address s empty_acc;
  OK (a |> gen_mode s
        |> gen_sensor_testing s
        |> gen_sensors_relay s
        |> gen_phase_angle s
        |> gen_stepper_driver s
        |> gen_disable_idle s
        |> gen_speed s
        |> gen_accel s
        |> gen_gearing s
        |> gen_invert invert_dir_switch "INVERT_DIRECTION" s
        |> gen_invert invert_step_switch "INVERT_STEP" s
        |> gen_invert invert_enable_switch "INVERT_ENABLE" s
        |> gen_rotate forward_only_switch "ROTATE_FORWARD_ONLY" "forward" s
        |> gen_rotate reverse_only_switch "ROTATE_REVERSE_ONLY" "reverse" s
        |> gen_override led_fast_switch led_fast "LED_FAST"
             "Fast LED delay must be numeric" "#define LED_FAST 100" s
        |> gen_override led_slow_switch led_slow "LED_SLOW"
             "Slow LED delay must be numeric" "#define LED_SLOW 500" s
        |> gen_debug s
        |> gen_override sanity_steps_switch sanity_steps "SANITY_STEPS"
             "Sanity step count must be numeric" "// #define SANITY_STEPS 10000" s
        |> gen_override home_sensitivity_switch home_sensitivity "HOME_SENSITIVITY"
             "Home sensitivity step count must be numeric" "// #define HOME_SENSITIVITY 300" s
        |> gen_override full_step_count_switch full_step_count "FULL_STEP_COUNT"
             "Full step count must be numeric" "// #define FULL_STEP_COUNT 4096" s
        |> gen_override debounce_delay_switch debounce_delay "DEBOUNCE_DELAY"
             "Debounce delay must be numeric" "// #define DEBOUNCE_DELAY 10" s).

(** What the method does to the outside: the two message calls of the base
    class, the write through the file manager, the log entry and the request
    to the root window. *)
Inductive effect : Type :=
| ProcessError (message : string)
| ProcessStop
| WriteConfigFile (path : string) (contents : list string)
| LogError (message : string)
| SwitchView (view_class : string) (product : string).

Definition header (s : screen) : string :=
  "// config.h - Generated by EX-Installer " +:+
  "v" +:+ app_version s +:+ " for " +:+ product_name s +:+ " " +:+
  str_of_option (product_version_name s) +:+ nl +:+ nl.

(** Lines 918-936. *)
Definition finish (fm : FileManager) (s : screen) (a : acc) : list effect :=
  if (0 <? length (param_errors a))%nat then
    [ProcessError (join ", " (param_errors a))]
  else
    let file_contents := [header s] ++ config_list a in
    let config_file_path := get_filepath fm (ex_turntable_dir s) "config.h" in
    let write_config := write_config_file fm config_file_path file_contents in
    [ProcessStop; WriteConfigFile config_file_path file_contents] ++
    if negb (String.eqb write_config config_file_path) then
      [ProcessError ("Could not write config.h: " +:+ write_config);
       LogError ("Could not write config file: " +:+ write_config)]
    else if String.eqb (sw s advanced_config_enabled) "on"
    then [SwitchView "advanced_config" (product s)]
    else [SwitchView "compile_upload" (product s)].

Definition generate_config (fm : FileManager) (s : screen) : result (list effect) :=
  a ← validate s;
  OK (finish fm s a).

End EXTurntable.

(** ** git_client.py: the version tag parser *)

Module GitClient.

(** A non-empty run of decimal digits as a number. *)
Fixpoint decimal_from (s : string) (acc : Z) : option Z :=
  match s with
  | EmptyString => Some acc
  | String c s' =>
      match PyStr.digit_val c with
      | Some d => decimal_from s' (10 * acc + d)
      | None => None
      end
  end.

Definition decimal (s : string) : option Z :=
  match s with
  | EmptyString => None
  | _ => decimal_from s 0
  end.

(** [s.split(sep)] for a one-character separator. *)
Fixpoint split (sep : ascii) (s : string) : list string :=
  match s with
  | EmptyString => [EmptyString]
  | String c s' =>
      if Ascii.eqb c sep then EmptyString :: split sep s'
      else match split sep s' with
           | [] => [String c EmptyString]
           | w :: ws => String c w :: ws
           end
  end.

(** Modelled from the spec: [GitClient.extract_version_details]; the module
    git_client.py is not part of the sources at hand.  The tag has the form
    [v<major>.<minor>.<patch>-<channel>]; the result is the numeric triple
    that [switch_view] unpacks into [set_product_version].  Without the
    leading [v] or with a triple that is not three dotted numbers, all three
    fields are absent; the channel does not change the numbers. *)
Definition extract_version_details (version : string) : option Z * option Z * option Z :=
  match version with
  | String "v" rest =>
      match split "." (hd EmptyString (split "-" rest)) with
      | [a; b; c] =>
          match decimal a, decimal b, decimal c with
          | Some major, Some minor, Some patch => (Some major, Some minor, Some patch)
          | _, _, _ => (None, None, None)
          end
      | _ => (None, None, None)
      end
  | _ => (None, None, None)
  end.

End GitClient.

(** ** ex_installer.py: the root window and its view switcher *)

Module EXInstaller.

(** What [switch_view] relies on in a view class of the registry: the
    [product] attribute its [__init__] defines, if any, and whether it has a
    [set_product_version] method.  Of the registered classes only
    [SelectProduct] is among the sources at hand. *)
Record class_info : Type := {
  class_name : string;
  init_product : option (option string);
  has_set_product_version : bool
}.

(** A view instance.  [obj_product] is the [product] attribute ([None] when
    the instance has no such attribute, [Some None] when it holds Python's
    [None]); [obj_version] is what the last [set_product_version] call
    passed. *)
Record view_obj : Type := {
  obj_class : class_info;
  obj_product : option (option string);
  obj_version : option (option string * (option Z * option Z * option Z))
}.

(** Instances are told apart by their identity. *)
Definition loc : Type := nat.

(** Calls into the toolkit that change what is on screen. *)
Inductive tk_event : Type :=
| Destroy (l : loc)
| Grid (l : loc)
| Tkraise (l : loc)
| CriticalMessagebox (message : string).

(** The root window: the registry [views], the instance cache [frames], the
    active view, the instances by identity, the identity the next instance
    gets, and the toolkit calls made so far. *)
Record installer : Type := {
  views : gmap string class_info;
  frames : gmap string loc;
  view : option loc;
  heap : loc -> view_obj;
  next_id : loc;
  events : list tk_event
}.

Definition set_frames (v : gmap string loc) (self : installer) : installer :=
  {| views := views self; frames := v; view := view self;
     heap := heap self; next_id := next_id self; events := events self |}.

Definition set_view (v : option loc) (self : installer) : installer :=
  {| views := views self; frames := frames self; view := v;
     heap := heap self; next_id := next_id self; events := events self |}.

Definition set_heap (v : loc -> view_obj) (self : installer) : installer :=
  {| views := views self; frames := frames self; view := view self;
     heap := v; next_id := next_id self; events := events self |}.

Definition set_next_id (v : loc) (self : installer) : installer :=
  {| views := views self; frames := frames self; view := view self;
     heap := heap self; next_id := v; events := events self |}.

Definition call (e : tk_event) (self : installer) : installer :=
  {| views := views self; frames := frames self; view := view self;
     heap := heap self; next_id := next_id self; events := events self ++ [e] |}.

(** [cls(self)]: a new instance with a new identity. *)
Definition new_obj (cls : class_info) : view_obj :=
  {| obj_class := cls; obj_product := init_product cls; obj_version := None |}.

Definition construct (cls : class_info) (self : installer) : loc * installer :=
  let l := next_id self in
  (l, self |> set_heap (<[l := new_obj cls]> (heap self)) |> set_next_id (S l)).

(** Modelled from the spec: the product hook [set_product] of the
    product-scoped views (their classes are not among the sources at hand);
    it associates the product with the instance. *)
Definition obj_set_product (product : option string) (o : view_obj) : view_obj :=
  {| obj_class := obj_class o; obj_product := Some product;
     obj_version := obj_version o |}.

(** [set_product_version(version, *version_details)] as seen from the
    switcher: the instance receives the version name and the triple. *)
Definition obj_set_product_version (version : option string)
    (details : option Z * option Z * option Z) (o : view_obj) : view_obj :=
  {| obj_class := obj_class o; obj_product := obj_product o;
     obj_version := Some (version, details) |}.

Definition set_product (l : loc) (product : option string) (self : installer) : installer :=
  set_heap (alter (obj_set_product product) l (heap self)) self.

Definition set_product_version (l : loc) (version : option string)
    (details : option Z * option Z * option Z) (self : installer) : installer :=
  set_heap (alter (obj_set_product_version version details) l (heap self)) self.

(** [hasattr(self.view, "set_product_version")] *)
Definition hasattr_set_product_version (l : loc) (self : installer) : bool :=
  has_set_product_version (obj_class (heap self l)).

(** Truth value of a [str] and of a [str] or [None]. *)
Definition truthy (s : string) : bool := negb (String.eqb s "").

Definition truthy_opt (o : option string) : bool :=
  match o with
  | Some s => truthy s
  | None => false
  end.

(** The local [calling_product] after lines 138-146: the [product] attribute
    of the active view when there is an active view that has one. *)
Definition calling_product (self : installer) : option string :=
  match view self with
  | Some l =>
      match obj_product (heap self l) with
      | Some p => p
      | None => None
      end
  | None => None
  end.

(** The local [version_details] after lines 140-141: bound only when
    [version] is true. *)
Definition version_details (version : option string)
    : option (option Z * option Z * option Z) :=
  match version with
  | Some v => if truthy v then Some (GitClient.extract_version_details v) else None
  | None => None
  end.

(** The condition of lines 149-152 under which a cached view is destroyed
    and built again. *)
Definition recreate (view_class : string) (product calling : option string) : bool :=
  String.eqb view_class "compile_upload" ||
  (String.eqb view_class "select_version_config" &&
   negb (bool_decide (product = calling))).

(** [switch_view].  The result is the exception that left the call, if any,
    together with the root window as the call left it.  Logging is left
    out. *)
Definition switch_view (view_class : string) (product version : option string)
    (self : installer) : result unit * installer :=
  if truthy view_class then
    let details := version_details version in
    let calling := calling_product self in
    match frames self !! view_class with
    | Some cached =>
        let self := set_view (Some cached) self in
        if recreate view_class product calling then
          let self := call (Destroy cached) self in
          match views self !! view_class with
          | None => (Raise KeyError, self)
          | Some cls =>
              let '(l, self) := construct cls self in
              let self := self |> set_view (Some l)
                               |> set_frames (<[view_class := l]> (frames self))
                               |> set_product l product in
              if hasattr_set_product_version l self then
                match details with
                | None => (Raise UnboundLocalError, self)
                | Some d =>
                    (OK (), self |> set_product_version l version d |> call (Grid l))
                end
              else (OK (), call (Grid l) self)
          end
        else
          let self :=
            if String.eqb view_class "select_version_config"
            then set_product cached product self
            else self in
          let self :=
            match details with
            | Some d =>
                if hasattr_set_product_version cached self
                then set_product_version cached version d self
                else self
            | None => self
            end in
          (OK (), call (Tkraise cached) self)
    | None =>
        match views self !! view_class with
        | None => (Raise KeyError, self)
        | Some cls =>
            let '(l, self) := construct cls self in
            let self := self |> set_view (Some l)
                             |> set_frames (<[view_class := l]> (frames self)) in
            let self :=
              if String.eqb view_class "compile_upload" ||
                 String.eqb view_class "select_version_config"
              then set_product l product self
              else self in
            if hasattr_set_product_version l self then
              match details with
              | None => (Raise UnboundLocalError, self)
              | Some d =>
                  (OK (), self |> set_product_version l version d |> call (Grid l))
              end
            else (OK (), call (Grid l) self)
        end
    end
  else (OK (), self).

(** [exception_handler]: the message box for an uncaught exception. *)
Definition exception_handler (e : exn) (self : installer) : installer :=
  call (CriticalMessagebox
          ("EX-Installer experienced an unknown error, " +:+
           "please send the log file to the DCC-EX team for further analysis"))
       self.

(** A widget command as the toolkit runs it: an exception that leaves the
    command goes to [report_callback_exception], which [__init__] sets to
    [exception_handler]. *)
Definition callback (command : installer -> result unit * installer)
    (self : installer) : installer :=
  match command self with
  | (OK _, self') => self'
  | (Raise e, self') => exception_handler e self'
  end.

(** The registry of [__init__].  [SelectProduct] defines [product] as [None]
    and has no version hook.  Modelled from the spec: the other six classes
    are not among the sources at hand; by the docstring of [switch_view]
    the two product-scoped views take a product and [ex_commandstation] is
    the view that receives the version. *)
Definition plain_class (name : string) : class_info :=
  {| class_name := name; init_product := None; has_set_product_version := false |}.

Definition product_class (name : string) (versioned : bool) : class_info :=
  {| class_name := name; init_product := Some None;
     has_set_product_version := versioned |}.

Definition registry : gmap string class_info :=
  list_to_map
    [("welcome", plain_class "Welcome");
     ("manage_arduino_cli", plain_class "ManageArduinoCLI");
     ("select_device", plain_class "SelectDevice");
     ("select_product", product_class "SelectProduct" false);
     ("select_version_config", product_class "SelectVersionConfig" false);
     ("ex_commandstation", product_class "EXCommandStation" true);
     ("compile_upload", product_class "CompileUpload" false)].

(** The root window before the first [switch_view], and after [__init__]. *)
Definition empty_window (reg : gmap string class_info) : installer :=
  {| views := reg; frames := ∅; view := None;
     heap := fun _ => new_obj (plain_class ""); next_id := O; events := [] |}.

Definition init : installer :=
  (switch_view "welcome" None None (empty_window registry)).2.

(** The cache only holds registered ids. *)
Definition cache_registered (self : installer) : Prop :=
  forall k, is_Some (frames self !! k) -> is_Some (views self !! k).

(** The windows the application can be in: the empty window of [__init__]
    and whatever a call of [switch_view] leaves, raised or not. *)
Inductive reachable (reg : gmap string class_info) : installer -> Prop :=
| reach_empty : reachable reg (empty_window reg)
| reach_switch self view_class product version :
    reachable reg self ->
    reachable reg (switch_view view_class product version self).2.

(** The reuse sentence read literally, for a request whose product is the
    product of the active view: the cached instance stays in the cache and
    becomes the active view. *)
Definition reused_when_product_unchanged (self : installer)
    (view_class : string) (product version : option string) : Prop :=
  forall l,
    frames self !! view_class = Some l ->
    product = calling_product self ->
    let self' := (switch_view view_class product version self).2 in
    frames self' !! view_class = Some l /\ view self' = Some l.

(** Welcome, product selection, version selection for the command station,
    then the compile screen. *)
Definition compile_upload_active : installer :=
  let step view_class product version self :=
    (switch_view view_class product version self).2 in
  init |> step "select_product" None None
       |> step "select_version_config" (Some "ex_commandstation") None
       |> step "compile_upload" (Some "ex_commandstation") None.

(** What the reuse path (lines 162-165) does to the cached instance. *)
Definition reinject (view_class : string) (product version : option string)
    (o : view_obj) : view_obj :=
  let o :=
    if String.eqb view_class "select_version_config"
    then obj_set_product product o
    else o in
  match version_details version with
  | Some d =>
      if has_set_product_version (obj_class o)
      then obj_set_product_version version d o
      else o
  | None => o
  end.

(** Version selection for the command station is the active view. *)
Definition version_config_active : installer :=
  let step view_class product version self :=
    (switch_view view_class product version self).2 in
  init |> step "select_product" None None
       |> step "select_version_config" (Some "ex_commandstation") None.

End EXInstaller.

(** ** The parameters of the configuration screen, as the specification names them

    The definitions of this module do not come from [generate_config]; they
    name the parameters, their version gates, their bounds and their
    messages, and the theorems below compare them with the code. *)

Module Schema.
Import PyStr Tk EXTurntable.

(** The parameters in the order in which the method visits them. *)
Inductive parameter : Type :=
| I2cAddress | Mode | SensorTesting | HomeSensor | LimitSensor | Relay
| PhaseSwitching | PhaseAngle | StepperDriver | DisableIdle | Speed | Accel
| Gearing | InvertDirection | InvertStep | InvertEnable
| ForwardOnly | ReverseOnly
| LedFast | LedSlow | Debug | SanitySteps | HomeSensitivity
| FullStepCount | DebounceDelay.

Definition parameters : list parameter :=
  [I2cAddress; Mode; SensorTesting; HomeSensor; LimitSensor; Relay;
   PhaseSwitching; PhaseAngle; StepperDriver; DisableIdle; Speed; Accel;
   Gearing; InvertDirection; InvertStep; InvertEnable;
   ForwardOnly; ReverseOnly;
   LedFast; LedSlow; Debug; SanitySteps; HomeSensitivity;
   FullStepCount; DebounceDelay].

(** The name of the directive of a parameter. *)
Definition directive (p : parameter) : string :=
  match p with
  | I2cAddress => "I2C_ADDRESS"
  | Mode => "TURNTABLE_EX_MODE"
  | SensorTesting => "SENSOR_TESTING"
  | HomeSensor => "HOME_SENSOR_ACTIVE_STATE"
  | LimitSensor => "LIMIT_SENSOR_ACTIVE_STATE"
  | Relay => "RELAY_ACTIVE_STATE"
  | PhaseSwitching => "PHASE_SWITCHING"
  | PhaseAngle => "PHASE_SWITCH_ANGLE"
  | StepperDriver => "STEPPER_DRIVER"
  | DisableIdle => "DISABLE_OUTPUTS_IDLE"
  | Speed => "STEPPER_MAX_SPEED"
  | Accel => "STEPPER_ACCELERATION"
  | Gearing => "STEPPER_GEARING_FACTOR"
  | InvertDirection => "INVERT_DIRECTION"
  | InvertStep => "INVERT_STEP"
  | InvertEnable => "INVERT_ENABLE"
  | ForwardOnly => "ROTATE_FORWARD_ONLY"
  | ReverseOnly => "ROTATE_REVERSE_ONLY"
  | LedFast => "LED_FAST"
  | LedSlow => "LED_SLOW"
  | Debug => "DEBUG"
  | SanitySteps => "SANITY_STEPS"
  | HomeSensitivity => "HOME_SENSITIVITY"
  | FullStepCount => "FULL_STEP_COUNT"
  | DebounceDelay => "DEBOUNCE_DELAY"
  end.

(** A line is a directive of [name] when it defines [name], active or
    commented out. *)
Definition directive_of (name line : string) : bool :=
  startswith ("#define " +:+ name) line ||
  startswith ("// #define " +:+ name) line.

(** The [editable] predicate: the widget of a version-gated parameter is in
    state [normal]; the other parameters have no gate. *)
Definition editable (s : screen) (p : parameter) : bool :=
  match p with
  | Gearing => tk_state_eqb (entry_state s gearing_entry) normal
  | InvertDirection => tk_state_eqb (sw_state s invert_dir_switch) normal
  | InvertStep => tk_state_eqb (sw_state s invert_step_switch) normal
  | InvertEnable => tk_state_eqb (sw_state s invert_enable_switch) normal
  | ForwardOnly => tk_state_eqb (sw_state s forward_only_switch) normal
  | ReverseOnly => tk_state_eqb (sw_state s reverse_only_switch) normal
  | _ => true
  end.

Definition version_gated (p : parameter) : bool :=
  match p with
  | Gearing | InvertDirection | InvertStep | InvertEnable
  | ForwardOnly | ReverseOnly => true
  | _ => false
  end.

(** The text is not an integer literal, or the integer is outside
    [lo .. hi]. *)
Definition out_of_range (lo hi : Z) (text : string) : bool :=
  match py_int text with
  | Some n => (n <? lo) || (hi <? n)
  | None => true
  end.

Definition not_numeric (text : string) : bool :=
  match py_int text with
  | Some _ => false
  | None => true
  end.

Definition is_on (s : screen) (w : switch_id) : bool :=
  String.eqb (sw s w) "on".

(** A parameter is invalid when it is in use and its value is not of its
    type, or outside its bounds, or breaks the rule on traverser mode.
    The bounds of the address are the decimal ones the method tests. *)
Definition invalid (s : screen) (p : parameter) : bool :=
  match p with
  | I2cAddress => out_of_range 8 77 (var s i2c_address)
  | PhaseAngle =>
      String.eqb (sw s auto_switch) "AUTO" &&
      out_of_range 0 180 (var s phase_angle)
  | StepperDriver => String.eqb (stepper_combo s) "Select stepper driver"
  | Speed => out_of_range 10 20000 (var s speed)
  | Accel => out_of_range 1 1000 (var s accel)
  | Gearing => editable s Gearing && out_of_range 1 10 (var s gearing)
  | ForwardOnly =>
      editable s ForwardOnly && is_on s forward_only_switch &&
      String.eqb (sw s mode_switch) "TRAVERSER"
  | ReverseOnly =>
      editable s ReverseOnly && is_on s reverse_only_switch &&
      String.eqb (sw s mode_switch) "TRAVERSER"
  | LedFast => is_on s led_fast_switch && not_numeric (var s led_fast)
  | LedSlow => is_on s led_slow_switch && not_numeric (var s led_slow)
  | SanitySteps =>
      is_on s sanity_steps_switch && not_numeric (var s sanity_steps)
  | HomeSensitivity =>
      is_on s home_sensitivity_switch && not_numeric (var s home_sensitivity)
  | FullStepCount =>
      is_on s full_step_count_switch && not_numeric (var s full_step_count)
  | DebounceDelay =>
      is_on s debounce_delay_switch && not_numeric (var s debounce_delay)
  | _ => false
  end.

(** The messages a parameter can cause. *)
Definition messages (p : parameter) : list string :=
  match p with
  | I2cAddress => [i2c_message]
  | PhaseAngle => ["Phase switch angle must be between 0 and 180"]
  | StepperDriver => ["You must select a stepper driver"]
  | Speed => ["You must provide a numeric speed value";
              "Speed must be between 10 and 20000"]
  | Accel => ["You must provide a numeric acceleration value";
              "Acceleration must be between 1 and 1000"]
  | Gearing => ["You must provide a numeric gearing factor";
                "Gearing factor must be between 1 and 10"]
  | ForwardOnly => ["Traverser mode is incompatible with forward only rotation"]
  | ReverseOnly => ["Traverser mode is incompatible with reverse only rotation"]
  | LedFast => ["Fast LED delay must be numeric"]
  | LedSlow => ["Slow LED delay must be numeric"]
  | SanitySteps => ["Sanity step count must be numeric"]
  | HomeSensitivity => ["Home sensitivity step count must be numeric"]
  | FullStepCount => ["Full step count must be numeric"]
  | DebounceDelay => ["Debounce delay must be numeric"]
  | _ => []
  end.

(** The message of an invalid parameter: the first of its messages when the
    text is not an integer literal, the last one otherwise. *)
Definition text_of (s : screen) (p : parameter) : string :=
  match p with
  | Speed => var s speed
  | Accel => var s accel
  | Gearing => var s gearing
  | _ => ""
  end.

Definition message (s : screen) (p : parameter) : string :=
  if not_numeric (text_of s p)
  then hd "" (messages p)
  else last (messages p) "".

(** What a parameter contributes to the error list. *)
Definition report (s : screen) (p : parameter) : list string :=
  if invalid s p then [message s p] else [].

Definition expected_errors (s : screen) : list string :=
  flat_map (report s) parameters.

(** N, the number of invalid parameters. *)
Definition invalid_count (s : screen) : nat :=
  length (List.filter (invalid s) parameters).

(** The second half of the gating sentence read literally: a parameter that
    is not editable has a directive of its own, active or commented out,
    among the emitted lines. *)
Definition default_directive_emitted (s : screen) (p : parameter) : Prop :=
  editable s p = false ->
  forall a, validate s = OK a ->
  exists line, In line (config_list a) /\ directive_of (directive p) line = true.

#[global] Instance parameter_eq_dec : EqDecision parameter.
Proof. solve_decision. Defined.

(** No line of the list defines [name]. *)
Definition avoids (name : string) (a : acc) : Prop :=
  Forall (fun line => directive_of name line = false) (config_list a).

(** Every entry of the screen holds a [plain] text. *)
Definition plain_entries (s : screen) : Prop :=
  forall v, plain (var s v) = true.

(** The sentence on a call of the version hook without numbers read
    literally, for a screen [s]: the call returns and leaves every
    parameter editable. *)
Definition opens_every_gate (fm : FileManager) (version : option string)
    (s : screen) : Prop :=
  exists s', set_product_version fm version None None None s = OK s' /\
             forall p, editable s' p = true.

End Schema.

(** ** Concrete screens and windows used by the examples *)

Module Examples.
Import Tk EXTurntable.

(** A file manager whose writes succeed. *)
Definition fm_ok : FileManager :=
  {| get_filepath := fun dir name => dir +:+ "/" +:+ name;
     get_list_from_file := fun _ _ => ["ULN2003_HALF_CW"; "AF_A4988"];
     write_config_file := fun path _ => path |}.

(** The hook as [switch_view] calls it:
    [set_product_version(version, *version_details)]. *)
Definition with_version (fm : FileManager) (version : string) (s : screen)
    : result screen :=
  let '(major, minor, patch) := GitClient.extract_version_details version in
  set_product_version fm (Some version) major minor patch s.

(** The screen as built, then a stepper driver chosen and the relay switch
    moved to active low: address 60, turntable mode, sensors and relay LOW,
    automatic phase switching at 45, speed 200, acceleration 25,
    gearing 1. *)
Definition fresh : screen := init "0.0.8" "EX-Turntable" "EX-Turntable".

Definition scenario : screen :=
  fresh |> set_stepper_combo "AF_A4988"
        |> on_switch relay_switch deselect.

Definition or_else (r : result screen) (s : screen) : screen :=
  match r with
  | OK s' => s'
  | Raise _ => s
  end.

Definition scenario_0_6_1 : screen :=
  or_else (with_version fm_ok "v0.6.1-Prod" scenario) scenario.

Definition scenario_0_5_0 : screen :=
  or_else (with_version fm_ok "v0.5.0-Prod" scenario) scenario.

(** The address 0x3C typed into the address entry. *)
Definition scenario_hex_address : screen :=
  var_set i2c_address "3C" scenario.

(** The same, with no stepper driver chosen either. *)
Definition two_invalid : screen :=
  var_set i2c_address "3C" fresh.

Definition scenario_address_5 : screen :=
  var_set i2c_address "5" scenario.

(** Traverser mode chosen: [set_mode] has disabled the rotation switches. *)
Definition traverser : screen :=
  scenario |> on_switch mode_switch select |> set_mode.

(** Traverser mode chosen, the version hook run without numbers (which puts
    the rotation switches back to [normal]), then forward only switched
    on. *)
Definition traverser_forward_only : screen :=
  let s := traverser in
  let s := or_else (set_product_version fm_ok None None None None s) s in
  s |> on_switch forward_only_switch select |> set_forward_only.

End Examples.

(** ** Python's [str] of an [int] *)

Module PyFormat.

(** [str(n)] for an [int]: the decimal digits, with a minus sign for a
    negative number. *)
Definition py_str (n : Z) : string := NilZero.string_of_int (Z.to_int n).

(** The value of a digit sequence read from the left, starting from [acc]. *)
Fixpoint horner (d : Decimal.uint) (acc : Z) : Z :=
  match d with
  | Decimal.Nil => acc
  | Decimal.D0 d => horner d (10 * acc)
  | Decimal.D1 d => horner d (10 * acc + 1)
  | Decimal.D2 d => horner d (10 * acc + 2)
  | Decimal.D3 d => horner d (10 * acc + 3)
  | Decimal.D4 d => horner d (10 * acc + 4)
  | Decimal.D5 d => horner d (10 * acc + 5)
  | Decimal.D6 d => horner d (10 * acc + 6)
  | Decimal.D7 d => horner d (10 * acc + 7)
  | Decimal.D8 d => horner d (10 * acc + 8)
  | Decimal.D9 d => horner d (10 * acc + 9)
  end.

End PyFormat.

(** ** ex_turntable.py: the address buttons and the other callbacks *)

Module EXTurntableCallbacks.
Import PyStr PyFormat Tk EXTurntable.

(** Calls a callback makes on the message area, the address entry and the
    Next button of the page. *)
Inductive ui_call : Type :=
| process_error (message : string)
| process_stop
| i2c_entry_text_color (colour : string)
| disable_next
| enable_next
| set_next_text (text : string).

(** [validate_i2c_address] (lines 626-643).  The three [int] calls read the
    same text; a text that is not an integer literal raises [ValueError]. *)
Definition validate_i2c_address (s : screen) : result (screen * list ui_call) :=
  match py_int (var s i2c_address) with
  | None => Raise ValueError
  | Some n =>
      if n <? 8 then
        OK (var_set i2c_address (py_str 8) s,
            [process_error i2c_message; i2c_entry_text_color "red"; disable_next])
      else if 77 <? n then
        OK (var_set i2c_address (py_str 77) s,
            [process_error i2c_message; i2c_entry_text_color "red"; disable_next])
      else
        OK (s, [process_stop; i2c_entry_text_color "#00353D"; enable_next])
  end.

(** [decrement_address] (lines 606-614). *)
Definition decrement_address (s : screen) : result (screen * list ui_call) :=
  match py_int (var s i2c_address) with
  | None => Raise ValueError
  | Some value =>
      validate_i2c_address
        (if 8 <? value then var_set i2c_address (py_str (value - 1)) s else s)
  end.

(** [increment_address] (lines 616-624). *)
Definition increment_address (s : screen) : result (screen * list ui_call) :=
  match py_int (var s i2c_address) with
  | None => Raise ValueError
  | Some value =>
      validate_i2c_address
        (if value <? 77 then var_set i2c_address (py_str (value + 1)) s else s)
  end.

(** [check_stepper] (lines 730-737), the command of the stepper combo box. *)
Definition check_stepper (value : string) : list ui_call :=
  if String.eqb value "Select stepper driver" then [disable_next] else [enable_next].

(** [set_advanced_config] (lines 739-746). *)
Definition set_advanced_config (s : screen) : list ui_call :=
  if String.eqb (sw s advanced_config_enabled) "on"
  then [set_next_text "Edit config"]
  else [set_next_text "Compile and load"].

(** Whether the Next button is enabled after a sequence of calls, given
    whether it was before. *)
Definition next_enabled_after (calls : list ui_call) (before : bool) : bool :=
  fold_left (fun enabled c =>
               match c with
               | disable_next => false
               | enable_next => true
               | _ => enabled
               end) calls before.

(** The address of the screen, as [generate_config] reads it. *)
Definition address (s : screen) : option Z := py_int (var s i2c_address).

Definition clamp (n : Z) : Z := Z.max 8 (Z.min 77 n).

(** A line of the file is a define, active or commented out. *)
Definition define_line (line : string) : bool :=
  startswith "#define " line || startswith "// #define " line.

(** The place in the schema of the first parameter of which the line is a
    directive; the number of parameters when there is none. *)
Fixpoint rank_in (ps : list Schema.parameter) (line : string) : nat :=
  match ps with
  | [] => O
  | p :: ps' =>
      if Schema.directive_of (Schema.directive p) line then O
      else S (rank_in ps' line)
  end.

Definition line_rank (line : string) : nat := rank_in Schema.parameters line.

(** The lines are in the order of the schema, all before place [k]. *)
Definition ranked (k : nat) (a : acc) : Prop :=
  StronglySorted lt (map line_rank (config_list a)) /\
  Forall (fun line => (line_rank line < k)%nat) (config_list a).

(** Manual phase switching, with a text in the angle entry that is no
    number. *)
Definition manual_phase : screen :=
  Examples.scenario |> on_switch auto_switch deselect
                    |> set_phase_switching
                    |> var_set phase_angle "abc".

(** A file manager whose writes fail. *)
Definition fm_fail : FileManager :=
  {| get_filepath := fun dir name => dir +:+ "/" +:+ name;
     get_list_from_file := fun _ _ => [];
     write_config_file := fun _ _ => "[Errno 13] Permission denied" |}.

(** The scenario with the reverse only switch switched on by the user,
    and the same with the pin inversions switched on. *)
Definition reverse_on : screen :=
  Examples.scenario |> on_switch reverse_only_switch select |> set_reverse_only.



End EXTurntableCallbacks.

(** ** product_details.py and select_product.py *)

Module SelectProduct.
Import PyStr EXTurntable.

(** An entry of [product_details]; the logo is left out. *)
Record details : Type := {
  product_name : string;
  repo_name : string;
  repo_url : string;
  archive_url : string;
  supported_devices : list string
}.

(** The table of product_details.py. *)
Definition product_details : gmap string details :=
  {[ "ex_commandstation" :=
       {| product_name := "EX-CommandStation";
          repo_name := "DCC-EX/CommandStation-EX";
          repo_url := "https://github.com/DCC-EX/CommandStation-EX.git";
          archive_url := "https://github.com/DCC-EX/CommandStation-EX/archive/refs/tags/";
          supported_devices :=
            ["arduino:avr:uno";
             "arduino:avr:nano";
             "arduino:avr:nano:cpu=atmega328";
             "arduino:avr:mega";
             "esp32:esp32:esp32";
             "STMicroelectronics:stm32:Nucleo_64:pnum=NUCLEO_F411RE";
             "STMicroelectronics:stm32:Nucleo_64:pnum=NUCLEO_F446RE"] |} ]}.

(** [x in l] for a list of strings. *)
Definition py_in (x : string) (l : list string) : bool :=
  existsb (String.eqb x) l.

(** [check_product_device] (lines 105-115), from the point where the name
    and the fqbn of the first matching board of the selected device have
    been read from the Arduino CLI object; [pd] is the product table.  The
    effects are the message, the log entry and the request to the root
    window. *)
Definition check_product_device (pd : gmap string details)
    (device_fqbn device_name : string) (product : string) : result (list effect) :=
  match pd !! product with
  | None => Raise KeyError
  | Some d =>
      if negb (py_in device_fqbn (supported_devices d)) then
        OK [ProcessError
              ("Device type " +:+ device_name +:+ " is not supported for use with " +:+
               product_name d +:+ nl +:+
               "Return to the Select Device screen and select a supported device");
            LogError ("Device type " +:+ device_name +:+ " is not supported for " +:+
                      product_name d)]
      else OK [SwitchView "select_version_config" product]
  end.

End SelectProduct.

(** ** Invariants of the root window *)

Module Window.
Import EXInstaller.

(** Every cached id is registered, every cached instance has been built,
    two ids never share an instance, and the active view is a cached
    instance. *)
Definition well_formed (self : installer) : Prop :=
  cache_registered self /\
  (forall k l, frames self !! k = Some l -> (l < next_id self)%nat) /\
  (forall k1 k2 l,
     frames self !! k1 = Some l -> frames self !! k2 = Some l -> k1 = k2) /\
  match view self with
  | Some l => exists k, frames self !! k = Some l
  | None => frames self = ∅
  end.

(** The request of a page to the root window, as the pages send it:
    [self.master.switch_view(view_class, product)]. *)
Definition deliver (e : EXTurntable.effect) (self : installer)
    : result unit * installer :=
  match e with
  | EXTurntable.SwitchView view_class product =>
      switch_view view_class (Some product) None self
  | _ => (OK (), self)
  end.

(** The product page is the active view. *)
Definition product_page_active : installer :=
  (switch_view "select_product" None None init).2.

(** Back on the product page after a first visit of the version page. *)
Definition back_on_product_page : installer :=
  let step view_class product version self :=
    (switch_view view_class product version self).2 in
  version_config_active |> step "select_product" None None.

End Window.

(** * Properties of the directive pipeline *)

Section Pipeline.
Import PyStr Tk EXTurntable Schema.

(** ** What every block adds to the error list *)

Lemma error_errors msg a : param_errors (error msg a) = param_errors a ++ [msg].
Proof. reflexivity. Qed.

Lemma emit_errors line a : param_errors (emit line a) = param_errors a.
Proof. reflexivity. Qed.

Lemma error_lines msg a : config_list (error msg a) = config_list a.
Proof. reflexivity. Qed.

Lemma emit_lines line a : config_list (emit line a) = config_list a ++ [line].
Proof. reflexivity. Qed.

Ltac block_errors :=
  intros;
  cbv [gen_mode gen_sensor_testing gen_sensors_relay gen_phase_angle
       gen_stepper_driver gen_disable_idle gen_speed gen_accel gen_gearing
       gen_invert gen_rotate gen_override gen_debug
       report invalid editable is_on out_of_range not_numeric
       message text_of messages];
  repeat case_match;
  rewrite ?emit_errors, ?error_errors, ?app_nil_r;
  simplify_eq/=; try done.

Lemma gen_mode_errors s a : param_errors (gen_mode s a) = param_errors a.
Proof. block_errors. Qed.

Lemma gen_sensor_testing_errors s a :
  param_errors (gen_sensor_testing s a) = param_errors a.
Proof. block_errors. Qed.

Lemma gen_sensors_relay_errors s a :
  param_errors (gen_sensors_relay s a) = param_errors a.
Proof. block_errors. Qed.

Lemma gen_phase_angle_errors s a :
  param_errors (gen_phase_angle s a) = param_errors a ++ report s PhaseAngle.
Proof. block_errors. Qed.

Lemma gen_stepper_driver_errors s a :
  param_errors (gen_stepper_driver s a) = param_errors a ++ report s StepperDriver.
Proof. block_errors. Qed.

Lemma gen_disable_idle_errors s a :
  param_errors (gen_disable_idle s a) = param_errors a.
Proof. block_errors. Qed.

Lemma gen_speed_errors s a :
  param_errors (gen_speed s a) = param_errors a ++ report s Speed.
Proof. block_errors. Qed.

Lemma gen_accel_errors s a :
  param_errors (gen_accel s a) = param_errors a ++ report s Accel.
Proof. block_errors. Qed.

Lemma gen_gearing_errors s a :
  param_errors (gen_gearing s a) = param_errors a ++ report s Gearing.
Proof. block_errors. Qed.

Lemma gen_invert_errors w name s a :
  param_errors (gen_invert w name s a) = param_errors a.
Proof. block_errors. Qed.

Lemma gen_forward_only_errors s a :
  param_errors (gen_rotate forward_only_switch "ROTATE_FORWARD_ONLY" "forward" s a)
  = param_errors a ++ report s ForwardOnly.
Proof. block_errors. Qed.

Lemma gen_reverse_only_errors s a :
  param_errors (gen_rotate reverse_only_switch "ROTATE_REVERSE_ONLY" "reverse" s a)
  = param_errors a ++ report s ReverseOnly.
Proof. block_errors. Qed.

Lemma gen_debug_errors s a : param_errors (gen_debug s a) = param_errors a.
Proof. block_errors. Qed.

Lemma message_untyped s p :
  text_of s p = "" -> message s p = hd "" (messages p).
Proof. intros H. unfold message. rewrite H. reflexivity. Qed.

Ltac override_errors :=
  intros; unfold report; rewrite message_untyped by reflexivity;
  cbv [gen_override invalid is_on not_numeric messages hd];
  repeat case_match;
  rewrite ?emit_errors, ?error_errors, ?app_nil_r;
  simplify_eq/=; try done.

Lemma gen_led_fast_errors name msg off_line s a :
  msg = hd "" (messages LedFast) ->
  param_errors (gen_override led_fast_switch led_fast name msg off_line s a)
  = param_errors a ++ report s LedFast.
Proof. override_errors. Qed.

Lemma gen_led_slow_errors name msg off_line s a :
  msg = hd "" (messages LedSlow) ->
  param_errors (gen_override led_slow_switch led_slow name msg off_line s a)
  = param_errors a ++ report s LedSlow.
Proof. override_errors. Qed.

Lemma gen_sanity_steps_errors name msg off_line s a :
  msg = hd "" (messages SanitySteps) ->
  param_errors (gen_override sanity_steps_switch sanity_steps name msg off_line s a)
  = param_errors a ++ report s SanitySteps.
Proof. override_errors. Qed.

Lemma gen_home_sensitivity_errors name msg off_line s a :
  msg = hd "" (messages HomeSensitivity) ->
  param_errors (gen_override home_sensitivity_switch home_sensitivity name msg off_line s a)
  = param_errors a ++ report s HomeSensitivity.
Proof. override_errors. Qed.

Lemma gen_full_step_count_errors name msg off_line s a :
  msg = hd "" (messages FullStepCount) ->
  param_errors (gen_override full_step_count_switch full_step_count name msg off_line s a)
  = param_errors a ++ report s FullStepCount.
Proof. override_errors. Qed.

Lemma gen_debounce_delay_errors name msg off_line s a :
  msg = hd "" (messages DebounceDelay) ->
  param_errors (gen_override debounce_delay_switch debounce_delay name msg off_line s a)
  = param_errors a ++ report s DebounceDelay.
Proof. override_errors. Qed.

(** The parameters that are not checked never report. *)
Lemma report_unchecked s p : messages p = [] -> report s p = [].
Proof. destruct p; intros H; try discriminate H; reflexivity. Qed.

Lemma gen_i2c_address_ok s n :
  py_int (var s i2c_address) = Some n ->
  exists a, gen_i2c_address s empty_acc = OK a /\
            param_errors a = report s I2cAddress /\
            config_list a =
              if invalid s I2cAddress then []
              else ["#define I2C_ADDRESS 0x" +:+ var s i2c_address +:+ nl].
Proof.
  intros Hn. unfold gen_i2c_address. rewrite Hn.
  cbv [report invalid out_of_range]. rewrite Hn.
  destruct ((n <? 8) || (77 <? n));
    (eexists; split; [reflexivity|]; split; reflexivity).
Qed.

(** The error list of a run that reaches the final test is the list of the
    messages of the invalid parameters, in the order of the schema. *)
Lemma validate_errors s n :
  py_int (var s i2c_address) = Some n ->
  exists a, validate s = OK a /\ param_errors a = expected_errors s.
Proof.
  intros Hn. destruct (gen_i2c_address_ok s n Hn) as (a0 & Ha0 & He0 & _).
  unfold validate. rewrite Ha0. eexists. split; [reflexivity|].
  rewrite gen_debounce_delay_errors, gen_full_step_count_errors,
    gen_home_sensitivity_errors, gen_sanity_steps_errors, gen_debug_errors,
    gen_led_slow_errors, gen_led_fast_errors,
    gen_reverse_only_errors, gen_forward_only_errors, !gen_invert_errors,
    gen_gearing_errors, gen_accel_errors, gen_speed_errors,
    gen_disable_idle_errors, gen_stepper_driver_errors,
    gen_phase_angle_errors, gen_sensors_relay_errors,
    gen_sensor_testing_errors, gen_mode_errors, He0 by reflexivity.
  unfold expected_errors, parameters. cbn [flat_map].
  repeat match goal with
         | |- context [report s ?p] =>
             rewrite (report_unchecked s p) by reflexivity
         end.
  cbn [app]. rewrite <- !app_assoc, app_nil_r. reflexivity.
Qed.

Lemma length_filter_sum {A} (f : A -> bool) (l : list A) :
  length (List.filter f l) = list_sum (map (fun x => Nat.b2n (f x)) l).
Proof.
  induction l as [|x l IH]; [reflexivity|].
  cbn. destruct (f x); cbn; rewrite IH; reflexivity.
Qed.

Lemma length_report s p : length (report s p) = Nat.b2n (invalid s p).
Proof. unfold report. destruct (invalid s p); reflexivity. Qed.

Lemma length_expected_errors s : length (expected_errors s) = invalid_count s.
Proof.
  unfold expected_errors, invalid_count. rewrite length_filter_sum.
  induction parameters as [|p l IH]; [reflexivity|].
  cbn. rewrite length_app, length_report, IH. reflexivity.
Qed.

(** With an address text that is an integer literal, the error list has one
    entry for each invalid parameter. *)
Lemma error_count s n :
  py_int (var s i2c_address) = Some n ->
  exists a, validate s = OK a /\ length (param_errors a) = invalid_count s.
Proof.
  intros Hn. destruct (validate_errors s n Hn) as (a & Ha & He).
  exists a. split; [exact Ha|]. rewrite He. apply length_expected_errors.
Qed.

(** ** Lines that never define a given name *)

Lemma avoids_error name msg a : avoids name a -> avoids name (error msg a).
Proof. exact id. Qed.

Lemma avoids_emit name line a :
  directive_of name line = false -> avoids name a -> avoids name (emit line a).
Proof.
  intros Hl Ha. unfold avoids. rewrite emit_lines.
  apply Forall_app. split; [exact Ha|]. repeat constructor. exact Hl.
Qed.

Lemma avoids_empty name : avoids name empty_acc.
Proof. constructor. Qed.

(** One block: unfold it, split on its tests, and check each line it can
    add.  [pre] rewrites with what is known of the screen. *)
Ltac block_lines pre :=
  let a := fresh "a" in
  let Ha := fresh "Ha" in
  intros a Ha;
  unfold gen_mode, gen_sensor_testing, gen_sensors_relay, gen_phase_angle,
    gen_stepper_driver, gen_disable_idle, gen_speed, gen_accel, gen_gearing,
    gen_invert, gen_rotate, gen_override, gen_debug;
  pre;
  repeat case_match;
  try congruence;
  repeat first
    [ apply avoids_error
    | apply avoids_emit; [vm_compute; reflexivity|] ];
  exact Ha.

Ltac peel pre :=
  match goal with
  | |- avoids ?n (?f ?x) =>
      cut (avoids n x); [generalize x; block_lines pre|]
  end.

Ltac start_lines H :=
  unfold validate, gen_i2c_address in H;
  repeat case_match; try discriminate H;
  cbn [mbind result_bind rbind] in H;
  injection H as <-.

(** A parameter whose widget is disabled leaves no line of its own. *)
Lemma disabled_avoids s a p :
  editable s p = false -> validate s = OK a -> avoids (directive p) a.
Proof.
  intros He H. start_lines H.
  all: destruct p; try discriminate He;
    cbn [editable directive] in *;
    repeat peel idtac;
    repeat first
      [ apply avoids_error
      | apply avoids_emit; [vm_compute; reflexivity|] ];
    apply avoids_empty.
Qed.

(** ** Messages *)

Lemma messages_disjoint p q e :
  p <> q -> In e (messages p) -> In e (messages q) -> False.
Proof.
  intros Hne Hp Hq.
  destruct p, q; try congruence; vm_compute in Hp, Hq;
    intuition (subst; discriminate).
Qed.

Lemma report_in_messages s p e : In e (report s p) -> In e (messages p).
Proof.
  unfold report. destruct (invalid s p) eqn:Hi; [|intros []].
  intros [<-|[]]. unfold message.
  destruct p; try discriminate Hi;
    destruct (not_numeric _); vm_compute; tauto.
Qed.

Lemma disabled_valid s p : editable s p = false -> invalid s p = false.
Proof.
  destruct p; intros He; try discriminate He; cbn [invalid];
    try rewrite He; reflexivity.
Qed.

Lemma validate_ok_int s a :
  validate s = OK a -> exists n, py_int (var s i2c_address) = Some n.
Proof.
  unfold validate, gen_i2c_address.
  destruct (py_int (var s i2c_address)) as [n|]; [eauto|discriminate].
Qed.

Lemma validate_errors_of s a :
  validate s = OK a -> param_errors a = expected_errors s.
Proof.
  intros H. destruct (validate_ok_int s a H) as [n Hn].
  destruct (validate_errors s n Hn) as (a' & Ha' & He). congruence.
Qed.

(** A parameter whose widget is disabled causes no entry of the error
    list. *)
Lemma disabled_no_error s a p e :
  editable s p = false -> validate s = OK a ->
  In e (param_errors a) -> ~ In e (messages p).
Proof.
  intros He H Hin Hp. rewrite (validate_errors_of s a H) in Hin.
  apply in_flat_map in Hin as (q & _ & Hq).
  destruct (decide (q = p)) as [->|Hne].
  - unfold report in Hq. rewrite (disabled_valid s p He) in Hq. destruct Hq.
  - exact (messages_disjoint q p e Hne (report_in_messages s q e Hq) Hp).
Qed.

(** ** The final step *)

Lemma finish_errors fm s a :
  param_errors a <> [] ->
  finish fm s a = [ProcessError (join ", " (param_errors a))].
Proof.
  intros H. unfold finish. destruct (param_errors a); [congruence|reflexivity].
Qed.

Lemma finish_write fm s a path contents :
  In (WriteConfigFile path contents) (finish fm s a) ->
  param_errors a = [] /\ contents = header s :: config_list a.
Proof.
  unfold finish. destruct (param_errors a) as [|e l]; cbn [length Nat.ltb Nat.leb].
  - intros Hin. split; [reflexivity|].
    apply in_app_iff in Hin as [Hin|Hin].
    + destruct Hin as [Hin|[Hin|[]]]; [discriminate Hin|].
      injection Hin as _ <-. reflexivity.
    + repeat case_match; cbn in Hin; intuition discriminate.
  - cbn. intros [H|[]]. discriminate H.
Qed.

Lemma header_no_directive name s : directive_of name (header s) = false.
Proof. reflexivity. Qed.

(** In traverser mode an enabled rotation switch that is on leaves no line
    of its own either. *)
Lemma traverser_forward_avoids s a :
  sw s mode_switch = "TRAVERSER" ->
  sw_state s forward_only_switch = normal ->
  sw s forward_only_switch = "on" ->
  validate s = OK a -> avoids "ROTATE_FORWARD_ONLY" a.
Proof.
  intros Hmode Hstate Hon H. start_lines H.
  all: repeat peel ltac:(rewrite ?Hmode, ?Hstate, ?Hon;
                         try change (String.eqb "on" "on") with true;
                         try change (String.eqb "TRAVERSER" "TRAVERSER") with true;
                         cbn [tk_state_eqb]);
    repeat first
      [ apply avoids_error
      | apply avoids_emit; [vm_compute; reflexivity|] ];
    apply avoids_empty.
Qed.

(** Errors and the write exclude each other: a run that reports errors
    requests no write, and a run that requests the write had an empty error
    list. *)
Lemma errors_exclude_write fm s a path contents :
  param_errors a <> [] -> ~ In (WriteConfigFile path contents) (finish fm s a).
Proof.
  intros Hne Hin. apply finish_write in Hin as [Hnil _]. exact (Hne Hnil).
Qed.

End Pipeline.

(** * The directive pipeline: gating, aggregation and the scenarios *)

Section PipelineProperties.
Import PyStr Tk EXTurntable Schema Examples.

(** C1, as the code has it: for every parameter and every state of the
    screen (whatever version was set), when the parameter is not editable
    the run puts no error of that parameter in the error list and no line
    for that parameter, active or commented out, in the list of directives
    or in the file it writes: a gated parameter is left out of the output. *)
Theorem C1_disabled_parameter_left_out (fm : FileManager) (s : screen) (p : parameter) :
  editable s p = false ->
  (forall a, validate s = OK a ->
     (forall e, In e (param_errors a) -> ~ In e (messages p)) /\
     (forall line, In line (config_list a) ->
        directive_of (directive p) line = false)) /\
  (forall effects path contents,
     generate_config fm s = OK effects ->
     In (WriteConfigFile path contents) effects ->
     forall line, In line contents -> directive_of (directive p) line = false).
Proof.
  intros He. split.
  - intros a Ha. split.
    + intros e. exact (disabled_no_error s a p e He Ha).
    + apply Forall_forall. exact (disabled_avoids s a p He Ha).
  - intros effects path contents Hg Hin line Hl.
    unfold generate_config in Hg.
    destruct (validate s) as [a|] eqn:Ha; [|discriminate Hg].
    injection Hg as <-.
    apply finish_write in Hin as [_ ->].
    destruct Hl as [<-|Hl]; [apply header_no_directive|].
    pose proof (disabled_avoids s a p He Ha) as Hav.
    unfold avoids in Hav. rewrite Forall_forall in Hav. exact (Hav line Hl).
Qed.

Lemma C1_disabled_parameter_left_out_witness :
  editable scenario_0_5_0 Gearing = false /\
  (forall a, validate scenario_0_5_0 = OK a ->
     (forall e, In e (param_errors a) -> ~ In e (messages Gearing)) /\
     (forall line, In line (config_list a) ->
        directive_of (directive Gearing) line = false)) /\
  (forall effects path contents,
     generate_config fm_ok scenario_0_5_0 = OK effects ->
     In (WriteConfigFile path contents) effects ->
     forall line, In line contents ->
     directive_of (directive Gearing) line = false).
Proof.
  split; [vm_compute; reflexivity|].
  apply (C1_disabled_parameter_left_out fm_ok scenario_0_5_0 Gearing).
  vm_compute; reflexivity.
Defined.

(** C1 as stated fails: under v0.5.0-Prod the gearing entry is disabled and
    the run emits no line for STEPPER_GEARING_FACTOR, neither the default
    nor a commented-out one. *)
Lemma C1_counterexample : ~ default_directive_emitted scenario_0_5_0 Gearing.
Proof.
  intros H.
  assert (exists a, validate scenario_0_5_0 = OK a) as [a Ha]
    by (eexists; vm_compute; reflexivity).
  destruct (H ltac:(vm_compute; reflexivity) a Ha) as (line & Hin & Hd).
  vm_compute in Ha. injection Ha as <-. cbn [config_list] in Hin.
  repeat (destruct Hin as [<-|Hin]; [vm_compute in Hd; discriminate Hd|]).
  destruct Hin.
Qed.

(** C2 at an input the code mishandles: with the address text 3C and no
    stepper driver chosen two parameters are invalid, and the run ends in
    ValueError at the first test, before any error is collected: there is no
    error list of two entries. *)
Theorem C2_address_text_aborts_aggregation (fm : FileManager) :
  invalid_count two_invalid = 2%nat /\
  validate two_invalid = Raise ValueError /\
  generate_config fm two_invalid = Raise ValueError.
Proof. repeat split; vm_compute; reflexivity. Qed.



(** C5: the scenario under v0.6.1-Prod has no errors; the file it writes
    holds the three lines for the address 0x60, turntable mode and gearing
    factor 1, and no line with INVERT_ or ROTATE_ in it. *)
Theorem C5_scenario_v0_6_1 (fm : FileManager) :
  exists s a tail,
    with_version fm "v0.6.1-Prod" scenario = OK s /\
    validate s = OK a /\
    param_errors a = [] /\
    generate_config fm s =
      OK (ProcessStop ::
          WriteConfigFile (get_filepath fm (ex_turntable_dir s) "config.h")
                          (header s :: config_list a) :: tail) /\
    In ("#define I2C_ADDRESS 0x60" +:+ nl) (config_list a) /\
    In ("#define TURNTABLE_EX_MODE TURNTABLE" +:+ nl) (config_list a) /\
    In ("#define STEPPER_GEARING_FACTOR 1" +:+ nl) (config_list a) /\
    Forall (fun line => contains "INVERT_" line = false /\
                        contains "ROTATE_" line = false)
           (header s :: config_list a).
Proof.
  eexists. eexists. eexists.
  split; [lazy; reflexivity|].
  split; [lazy; reflexivity|].
  split; [reflexivity|].
  split; [lazy; reflexivity|].
  cbn [config_list].
  split; [vm_compute; tauto|].
  split; [vm_compute; tauto|].
  split; [vm_compute; tauto|].
  repeat constructor; vm_compute; reflexivity.
Qed.

(** C6: in traverser mode, with the forward only switch enabled and on (and
    an address text that is an integer literal, so that the run reaches the
    checks), the error list holds "Traverser mode is incompatible with
    forward only rotation", no line for ROTATE_FORWARD_ONLY is among the
    directives, and the run ends in the error report, without a write.
    The entries hold plain texts, on which [py_int] is [int]. *)
Theorem C6_traverser_forward_only (fm : FileManager) (s : screen) (n : Z) :
  plain_entries s ->
  sw s mode_switch = "TRAVERSER" ->
  sw_state s forward_only_switch = normal ->
  sw s forward_only_switch = "on" ->
  py_int (var s i2c_address) = Some n ->
  exists a,
    validate s = OK a /\
    In "Traverser mode is incompatible with forward only rotation"
       (param_errors a) /\
    (forall line, In line (config_list a) ->
       directive_of "ROTATE_FORWARD_ONLY" line = false) /\
    generate_config fm s = OK [ProcessError (join ", " (param_errors a))].
Proof.
  intros _ Hmode Hstate Hon Hn.
  destruct (validate_errors s n Hn) as (a & Ha & He).
  assert (Hin : In "Traverser mode is incompatible with forward only rotation"
                   (param_errors a)).
  { rewrite He. apply in_flat_map. exists ForwardOnly. split.
    - unfold parameters. cbn. tauto.
    - unfold report, message. cbn [invalid editable text_of]. unfold is_on.
      rewrite Hmode, Hstate, Hon. left. reflexivity. }
  exists a. split; [exact Ha|]. split; [exact Hin|]. split.
  - apply Forall_forall.
    exact (traverser_forward_avoids s a Hmode Hstate Hon Ha).
  - unfold generate_config. rewrite Ha. cbn [mbind result_bind rbind].
    f_equal. apply finish_errors. intros Hnil. rewrite Hnil in Hin. destruct Hin.
Qed.

Lemma C6_traverser_forward_only_witness :
  exists a,
    validate traverser_forward_only = OK a /\
    In "Traverser mode is incompatible with forward only rotation"
       (param_errors a) /\
    (forall line, In line (config_list a) ->
       directive_of "ROTATE_FORWARD_ONLY" line = false) /\
    generate_config fm_ok traverser_forward_only
    = OK [ProcessError (join ", " (param_errors a))].
Proof.
  apply (C6_traverser_forward_only fm_ok traverser_forward_only 60);
    [intros v; destruct v|..]; vm_compute; reflexivity.
Defined.

(** C7 as stated fails on the text of the message: the one error of the
    run with address 5 is spelled with a superscript two, not with the
    digit. *)
Lemma C7_counterexample :
  match validate scenario_address_5 with
  | OK a => param_errors a <> ["I2C address must be between 0x8 and 0x77"]
  | Raise _ => False
  end.
Proof. vm_compute. intros H. discriminate H. Qed.

(** C7, as the code has it: with the address text 5 and every other
    parameter valid the error list has exactly one entry, the message
    "I(U+00B2)C address must be between 0x8 and 0x77", and the run ends in
    the error report, without a write.  The entries hold plain texts, on
    which [py_int] is [int]. *)
Theorem C7_address_5_single_error (fm : FileManager) (s : screen) :
  plain_entries s ->
  var s i2c_address = "5" ->
  (forall p, p <> I2cAddress -> invalid s p = false) ->
  exists a,
    validate s = OK a /\
    param_errors a = [i2c_message] /\
    generate_config fm s = OK [ProcessError i2c_message].
Proof.
  intros _ H5 Hvalid.
  assert (Hn : py_int (var s i2c_address) = Some 5) by (rewrite H5; reflexivity).
  destruct (validate_errors s 5 Hn) as (a & Ha & He).
  assert (Herr : param_errors a = [i2c_message]).
  { rewrite He. unfold expected_errors, parameters. cbn [flat_map].
    unfold report at 1. cbn [invalid]. rewrite H5.
    repeat match goal with
           | |- context [report s ?p] =>
               unfold report at 1; rewrite (Hvalid p) by discriminate
           end.
    reflexivity. }
  exists a. split; [exact Ha|]. split; [exact Herr|].
  unfold generate_config. rewrite Ha. cbn [mbind result_bind rbind].
  rewrite finish_errors by (rewrite Herr; discriminate).
  rewrite Herr. reflexivity.
Qed.

Lemma C7_address_5_single_error_witness :
  exists a,
    validate scenario_address_5 = OK a /\
    param_errors a = [i2c_message] /\
    generate_config fm_ok scenario_address_5 = OK [ProcessError i2c_message].
Proof.
  apply (C7_address_5_single_error fm_ok scenario_address_5).
  - intros v; destruct v; vm_compute; reflexivity.
  - vm_compute; reflexivity.
  - intros p Hp. destruct p; try (vm_compute; reflexivity). congruence.
Defined.

(** C10 as stated fails on a screen that an earlier call has given the
    version 0.5.0: the call without numbers keeps the stored numbers, the
    gates stay closed, and the gearing factor is not editable. *)
Lemma C10_counterexample :
  product_major_version scenario_0_5_0 = Some 0 /\
  ~ opens_every_gate fm_ok (Some "main") scenario_0_5_0.
Proof.
  split; [reflexivity|].
  intros (s' & Hcall & Hgates).
  vm_compute in Hcall. injection Hcall as <-.
  specialize (Hgates Gearing). vm_compute in Hgates. discriminate Hgates.
Qed.

(** C10, as the code has it: when no major version is stored and the hook
    is called without version numbers, the call succeeds and every
    parameter is editable afterwards: the gearing entry and the five gated
    switches are in state normal. *)
Theorem C10_no_version_enables_all (fm : FileManager) (version : option string)
    (s : screen) :
  product_major_version s = None ->
  exists s',
    set_product_version fm version None None None s = OK s' /\
    (forall p, editable s' p = true) /\
    entry_state s' gearing_entry = normal /\
    sw_state s' invert_dir_switch = normal /\
    sw_state s' invert_step_switch = normal /\
    sw_state s' invert_enable_switch = normal /\
    sw_state s' forward_only_switch = normal /\
    sw_state s' reverse_only_switch = normal.
Proof.
  intros Hmajor. unfold set_product_version.
  cbn [store_version]. unfold version_before.
  cbn [get_steppers set_stepper_list set_product_version_name
       product_major_version].
  rewrite Hmajor. cbn [mbind result_bind rbind].
  unfold version_before. cbn. rewrite Hmajor.
  eexists. split; [reflexivity|].
  split; [intros p; destruct p; reflexivity|].
  repeat split.
Qed.

Lemma C10_no_version_enables_all_witness :
  product_major_version traverser = None /\
  sw_state traverser forward_only_switch = disabled /\
  exists s',
    set_product_version fm_ok None None None None traverser = OK s' /\
    (forall p, editable s' p = true) /\
    entry_state s' gearing_entry = normal /\
    sw_state s' invert_dir_switch = normal /\
    sw_state s' invert_step_switch = normal /\
    sw_state s' invert_enable_switch = normal /\
    sw_state s' forward_only_switch = normal /\
    sw_state s' reverse_only_switch = normal.
Proof.
  split; [reflexivity|]. split; [reflexivity|].
  apply (C10_no_version_enables_all fm_ok None traverser). reflexivity.
Defined.

End PipelineProperties.

(** * The view switcher *)

Section Navigation.
Import EXInstaller.

Lemma switch_view_views view_class product version self :
  views (switch_view view_class product version self).2 = views self.
Proof.
  unfold switch_view, construct. repeat case_match; simplify_eq/=; reflexivity.
Qed.

Lemma switch_view_cache_registered view_class product version self :
  cache_registered self ->
  cache_registered (switch_view view_class product version self).2.
Proof.
  intros Hc k. rewrite switch_view_views.
  unfold switch_view, construct.
  repeat case_match; simplify_eq/=; try apply Hc;
    (destruct (decide (view_class = k)) as [->|Hne];
     [intros _; eauto | rewrite lookup_insert_ne by exact Hne; apply Hc]).
Qed.

Lemma reachable_views reg self : reachable reg self -> views self = reg.
Proof.
  induction 1 as [|self vc product version _ IH]; [reflexivity|].
  rewrite switch_view_views. exact IH.
Qed.

Lemma reachable_cache_registered reg self :
  reachable reg self -> cache_registered self.
Proof.
  induction 1 as [|self vc product version _ IH].
  - intros k [l Hl]. cbn in Hl. rewrite lookup_empty in Hl. discriminate Hl.
  - apply switch_view_cache_registered. exact IH.
Qed.

(** C8 as stated fails for the empty id: it is not in the registry, and the
    guard at the top of the method makes the call return without an
    exception (and without a switch). *)
Lemma C8_counterexample :
  registry !! "" = None /\
  switch_view "" None None init = (OK (), init).
Proof. split; [vm_compute; reflexivity | reflexivity]. Qed.

(** C8, as the code has it: in every window the application can reach, a
    request for a non-empty id that is not in the registry raises KeyError
    out of [switch_view] and leaves the window as it was; run as a widget
    command, the exception reaches [exception_handler], whose message box is
    the only thing that happens: the active view and the cache are the same
    as before. *)
Theorem C8_unregistered_id_is_fatal (reg : gmap string class_info)
    (self : installer) (view_class : string) (product version : option string) :
  reachable reg self ->
  truthy view_class = true ->
  reg !! view_class = None ->
  switch_view view_class product version self = (Raise KeyError, self) /\
  callback (switch_view view_class product version) self
  = exception_handler KeyError self /\
  view (callback (switch_view view_class product version) self) = view self /\
  frames (callback (switch_view view_class product version) self) = frames self /\
  exists message,
    events (callback (switch_view view_class product version) self)
    = events self ++ [CriticalMessagebox message].
Proof.
  intros Hreach Htruthy Hreg.
  assert (Hviews : views self !! view_class = None)
    by (rewrite (reachable_views reg self Hreach); exact Hreg).
  assert (Hframes : frames self !! view_class = None).
  { destruct (frames self !! view_class) as [l|] eqn:Hl; [|reflexivity].
    destruct (reachable_cache_registered reg self Hreach view_class) as [cls Hcls];
      [eauto|congruence]. }
  assert (Hsw : switch_view view_class product version self = (Raise KeyError, self)).
  { unfold switch_view. rewrite Htruthy, Hframes, Hviews. reflexivity. }
  split; [exact Hsw|]. unfold callback. rewrite Hsw.
  repeat split. eexists. reflexivity.
Qed.

Lemma C8_unregistered_id_is_fatal_witness :
  switch_view "advanced_config" (Some "ex_turntable") None compile_upload_active
  = (Raise KeyError, compile_upload_active) /\
  callback (switch_view "advanced_config" (Some "ex_turntable") None)
    compile_upload_active
  = exception_handler KeyError compile_upload_active /\
  view (callback (switch_view "advanced_config" (Some "ex_turntable") None)
          compile_upload_active) = view compile_upload_active /\
  frames (callback (switch_view "advanced_config" (Some "ex_turntable") None)
            compile_upload_active) = frames compile_upload_active /\
  exists message,
    events (callback (switch_view "advanced_config" (Some "ex_turntable") None)
              compile_upload_active)
    = events compile_upload_active ++ [CriticalMessagebox message].
Proof.
  apply (C8_unregistered_id_is_fatal registry).
  - repeat apply reach_switch. apply reach_empty.
  - reflexivity.
  - vm_compute; reflexivity.
Defined.

(** C9: a call that builds an instance (the id is not cached, or the cached
    view is to be built again) of a class with a [set_product_version]
    method, with a version that is [None] (or empty), raises
    UnboundLocalError. *)
Theorem C9_missing_version_unbound (self : installer) (view_class : string)
    (product version : option string) (cls : class_info) :
  truthy view_class = true ->
  truthy_opt version = false ->
  views self !! view_class = Some cls ->
  has_set_product_version cls = true ->
  frames self !! view_class = None \/
  recreate view_class product (calling_product self) = true ->
  (switch_view view_class product version self).1 = Raise UnboundLocalError.
Proof.
  intros Htruthy Hversion Hviews Hhook Hbuild.
  assert (Hdetails : version_details version = None).
  { unfold version_details, truthy_opt in *.
    destruct version as [v|]; [rewrite Hversion|]; reflexivity. }
  unfold switch_view. rewrite Htruthy, Hdetails.
  destruct (frames self !! view_class) as [cached|] eqn:Hcached.
  - destruct Hbuild as [Hbuild|Hbuild]; [discriminate Hbuild|].
    rewrite Hbuild. cbn. rewrite Hviews. cbn.
    unfold hasattr_set_product_version. cbn.
    rewrite fn_lookup_alter, fn_lookup_insert. cbn. rewrite Hhook. reflexivity.
  - cbn. rewrite Hviews. cbn.
    unfold hasattr_set_product_version.
    destruct (String.eqb view_class "compile_upload" ||
              String.eqb view_class "select_version_config"); cbn;
      rewrite ?fn_lookup_alter, fn_lookup_insert; cbn; rewrite Hhook; reflexivity.
Qed.

Lemma C9_missing_version_unbound_witness :
  (switch_view "ex_commandstation" (Some "ex_commandstation") None
     version_config_active).1 = Raise UnboundLocalError.
Proof.
  apply (C9_missing_version_unbound version_config_active "ex_commandstation"
           (Some "ex_commandstation") None (product_class "EXCommandStation" true)).
  - reflexivity.
  - reflexivity.
  - vm_compute; reflexivity.
  - reflexivity.
  - left. vm_compute; reflexivity.
Defined.

(** ** Reuse of a cached view *)

Lemma recreate_false view_class product calling :
  recreate view_class product calling = false ->
  String.eqb view_class "compile_upload" = false /\
  (String.eqb view_class "select_version_config" = true -> product = calling).
Proof.
  unfold recreate. intros H.
  apply orb_false_elim in H as [H1 H2]. split; [exact H1|].
  intros Hs. rewrite Hs in H2. cbn in H2.
  apply negb_false_iff, bool_decide_eq_true in H2. exact H2.
Qed.

Lemma reinject_class view_class product version o :
  obj_class (reinject view_class product version o) = obj_class o.
Proof. unfold reinject. repeat case_match; reflexivity. Qed.

Lemma reinject_product view_class product version o :
  obj_product (reinject view_class product version o)
  = if String.eqb view_class "select_version_config"
    then Some product else obj_product o.
Proof. unfold reinject. repeat case_match; reflexivity. Qed.

Lemma reinject_idem view_class product version o :
  reinject view_class product version (reinject view_class product version o)
  = reinject view_class product version o.
Proof.
  unfold reinject.
  destruct (String.eqb view_class "select_version_config");
    destruct (version_details version) as [d|]; cbn;
    try destruct (has_set_product_version (obj_class o)) eqn:Hh; cbn;
    rewrite ?Hh; reflexivity.
Qed.

(** The reuse path in one equation. *)
Lemma switch_view_reuse self view_class product version l :
  truthy view_class = true ->
  frames self !! view_class = Some l ->
  recreate view_class product (calling_product self) = false ->
  exists self',
    switch_view view_class product version self = (OK (), self') /\
    views self' = views self /\
    frames self' = frames self /\
    view self' = Some l /\
    next_id self' = next_id self /\
    events self' = events self ++ [Tkraise l] /\
    forall l', heap self' l'
               = alter (reinject view_class product version) l (heap self) l'.
Proof.
  intros Htruthy Hcached Hrec.
  unfold switch_view. rewrite Htruthy, Hcached, Hrec.
  eexists. split; [reflexivity|]. cbn.
  unfold hasattr_set_product_version, reinject.
  repeat split;
    destruct (String.eqb view_class "select_version_config");
    destruct (version_details version) as [d|]; cbn; try reflexivity;
    rewrite ?fn_lookup_alter;
    try (destruct (has_set_product_version _); reflexivity).
  all: intros l'; destruct (decide (l = l')) as [<-|Hne];
    rewrite ?fn_lookup_alter, ?fn_lookup_alter_ne by exact Hne; cbn;
    try reflexivity;
    destruct (has_set_product_version _); cbn;
    rewrite ?fn_lookup_alter, ?fn_lookup_alter_ne by exact Hne; reflexivity.
Qed.

(** After the reuse path, the product the active view reports is the
    requested one whenever the recreation test looks at it. *)
Lemma reuse_keeps_condition self self' view_class product version l :
  recreate view_class product (calling_product self) = false ->
  view self' = Some l ->
  (forall l', heap self' l'
              = alter (reinject view_class product version) l (heap self) l') ->
  recreate view_class product (calling_product self') = false.
Proof.
  intros Hrec Hview Hheap.
  destruct (recreate_false _ _ _ Hrec) as [Hcu Hsvc].
  unfold recreate. rewrite Hcu. cbn.
  destruct (String.eqb view_class "select_version_config") eqn:Hs; [|reflexivity].
  cbn. apply negb_false_iff, bool_decide_eq_true.
  unfold calling_product. rewrite Hview, Hheap, fn_lookup_alter.
  rewrite reinject_product, Hs. reflexivity.
Qed.

(** C3 as stated fails for compile_upload: cached, active, and requested
    again with the product it already has, it is destroyed and built
    again. *)
Lemma C3_counterexample :
  ~ reused_when_product_unchanged compile_upload_active "compile_upload"
      (Some "ex_commandstation") None.
Proof.
  intros H.
  destruct (H 3%nat ltac:(vm_compute; reflexivity) ltac:(vm_compute; reflexivity))
    as [_ Hview].
  vm_compute in Hview. discriminate Hview.
Qed.

(** C3, as the code has it: a request for a cached view for which the
    recreation test is false (the id is not compile_upload, and for
    select_version_config the requested product is the product of the
    active view) succeeds, keeps the cache, makes the cached instance the
    active view, builds and destroys nothing and raises the instance; the
    same request once more does the same and leaves every instance as the
    first request left it. *)
Theorem C3_cached_view_reused (self : installer) (view_class : string)
    (product version : option string) (l : loc) :
  truthy view_class = true ->
  frames self !! view_class = Some l ->
  recreate view_class product (calling_product self) = false ->
  let once := switch_view view_class product version self in
  let twice := switch_view view_class product version once.2 in
  (once.1 = OK () /\
   frames once.2 = frames self /\
   view once.2 = Some l /\
   next_id once.2 = next_id self /\
   events once.2 = events self ++ [Tkraise l]) /\
  (twice.1 = OK () /\
   frames twice.2 = frames self /\
   view twice.2 = Some l /\
   next_id twice.2 = next_id self /\
   events twice.2 = events once.2 ++ [Tkraise l] /\
   forall l', heap twice.2 l' = heap once.2 l').
Proof.
  intros Htruthy Hcached Hrec once twice.
  destruct (switch_view_reuse self view_class product version l
              Htruthy Hcached Hrec)
    as (s1 & H1 & _ & Hf1 & Hv1 & Hn1 & He1 & Hh1).
  assert (Hcached1 : frames s1 !! view_class = Some l)
    by (rewrite Hf1; exact Hcached).
  pose proof (reuse_keeps_condition self s1 view_class product version l
                Hrec Hv1 Hh1) as Hrec1.
  destruct (switch_view_reuse s1 view_class product version l
              Htruthy Hcached1 Hrec1)
    as (s2 & H2 & _ & Hf2 & Hv2 & Hn2 & He2 & Hh2).
  subst once twice. rewrite H1. cbn [fst snd]. rewrite H2. cbn [fst snd].
  repeat split; try assumption; try congruence.
  intros l'. rewrite Hh2.
  destruct (decide (l = l')) as [<-|Hne].
  - rewrite fn_lookup_alter, Hh1, fn_lookup_alter. apply reinject_idem.
  - rewrite fn_lookup_alter_ne by exact Hne. reflexivity.
Qed.

Lemma C3_cached_view_reused_witness :
  let self := version_config_active in
  let once := switch_view "select_version_config" (Some "ex_commandstation") None self in
  let twice := switch_view "select_version_config" (Some "ex_commandstation") None once.2 in
  (once.1 = OK () /\
   frames once.2 = frames self /\
   view once.2 = Some 2%nat /\
   next_id once.2 = next_id self /\
   events once.2 = events self ++ [Tkraise 2%nat]) /\
  (twice.1 = OK () /\
   frames twice.2 = frames self /\
   view twice.2 = Some 2%nat /\
   next_id twice.2 = next_id self /\
   events twice.2 = events once.2 ++ [Tkraise 2%nat] /\
   forall l', heap twice.2 l' = heap once.2 l').
Proof.
  apply (C3_cached_view_reused version_config_active "select_version_config"
           (Some "ex_commandstation") None 2%nat).
  - reflexivity.
  - vm_compute; reflexivity.
  - vm_compute; reflexivity.
Defined.

End Navigation.

(** * Writing and reading numbers *)

Section Decimal.
Import PyStr PyFormat.

Lemma parse_uint d acc :
  parse_digits (list_ascii_of_string (NilEmpty.string_of_uint d)) acc true
  = Some (horner d acc).
Proof.
  revert acc. induction d; intros acc; cbn [NilEmpty.string_of_uint list_ascii_of_string];
    try reflexivity;
    cbn [parse_digits]; 
    match goal with |- context [digit_val ?c] =>
      let v := eval vm_compute in (digit_val c) in change (digit_val c) with v end;
    cbv iota beta; rewrite IHd; cbn [horner]; f_equal; f_equal; lia.
Qed.

Lemma horner_pos d (acc : positive) :
  horner d (Z.pos acc) = Z.pos (Pos.of_uint_acc d acc).
Proof.
  revert acc. induction d; intros acc; cbn [horner Pos.of_uint_acc];
    try reflexivity;
    match goal with
    | |- horner _ ?x = Z.pos (Pos.of_uint_acc _ ?y) =>
        replace x with (Z.pos y) by lia
    end; apply IHd.
Qed.

Lemma horner_of_uint d : horner d 0 = Z.of_N (Pos.of_uint d).
Proof.
  induction d; cbn [horner Pos.of_uint]; try reflexivity;
    try exact IHd;
    match goal with
    | |- horner _ ?x = Z.of_N (N.pos (Pos.of_uint_acc _ ?y)) =>
        change x with (Z.pos y)
    end; apply horner_pos.
Qed.

Lemma string_of_uint_chars d :
  Forall (fun c => is_space c = false)
         (list_ascii_of_string (NilEmpty.string_of_uint d)).
Proof. induction d; cbn; constructor; try reflexivity; assumption. Qed.

Lemma lstrip_id l :
  hd_error l = None \/ (exists c, hd_error l = Some c /\ is_space c = false) ->
  lstrip l = l.
Proof.
  destruct l as [|c l]; [reflexivity|]. intros [H|(c' & H & Hc)]; [discriminate H|].
  injection H as <-. cbn [lstrip]. rewrite Hc. reflexivity.
Qed.

Lemma strip_no_space l :
  Forall (fun c => is_space c = false) l -> strip l = l.
Proof.
  intros H. unfold strip.
  rewrite (lstrip_id l), (lstrip_id (rev l)), rev_involutive; [reflexivity| |].
  - destruct (rev l) as [|c r] eqn:Hr; [left; reflexivity|].
    right. exists c. split; [reflexivity|].
    rewrite Forall_forall in H. apply H. apply in_rev. rewrite Hr. left. reflexivity.
  - destruct l as [|c r]; [left; reflexivity|].
    right. exists c. split; [reflexivity|]. inversion H; assumption.
Qed.

Lemma py_int_uint d :
  d <> Decimal.Nil ->
  py_int (NilEmpty.string_of_uint d) = Some (horner d 0).
Proof.
  intros Hd. unfold py_int.
  rewrite strip_no_space by apply string_of_uint_chars.
  pose proof (parse_uint d 0) as Hp.
  destruct d; try congruence;
    cbn [NilEmpty.string_of_uint list_ascii_of_string] in *;
    cbn [Ascii.eqb Bool.eqb]; cbn [parse_digits] in *;
    exact Hp.
Qed.

(** Reading back a number that was written out gives the number. *)
Lemma py_int_str n : py_int (py_str n) = Some n.
Proof.
  unfold py_str. pose proof (DecimalZ.of_to n) as Hn.
  destruct (Z.to_int n) as [d|d] eqn:Hd.
  - assert (Hnn : d <> Decimal.Nil).
    { destruct n; cbn in Hd; try discriminate Hd; injection Hd as <-;
        [discriminate | apply Unsigned.to_uint_nonnil]. }
    cbn [NilZero.string_of_int]. unfold NilZero.string_of_uint.
    destruct d; try congruence; rewrite py_int_uint by discriminate;
      rewrite horner_of_uint; f_equal; exact Hn.
  - assert (Hnn : d <> Decimal.Nil).
    { destruct n; cbn in Hd; try discriminate Hd; injection Hd as <-.
      apply Unsigned.to_uint_nonnil. }
    cbn [NilZero.string_of_int]. unfold NilZero.string_of_uint.
    assert (Hp : py_int (NilEmpty.string_of_uint d) = Some (horner d 0))
      by (apply py_int_uint; exact Hnn).
    assert (Hs : py_int (String "-" (NilEmpty.string_of_uint d))
                 = Some (- horner d 0)).
    { unfold py_int in *. cbn [list_ascii_of_string].
      pose proof (string_of_uint_chars d) as Hc.
      rewrite strip_no_space in Hp by exact Hc.
      rewrite strip_no_space by (constructor; [reflexivity|exact Hc]).
      cbn [Ascii.eqb Bool.eqb]. cbv iota beta.
      destruct d; try congruence;
        cbn [NilEmpty.string_of_uint list_ascii_of_string] in *;
        cbn [Ascii.eqb Bool.eqb] in Hp; cbv iota beta in Hp;
        cbn [parse_digits] in *;
        match type of Hp with context [digit_val ?c] =>
          let v := eval vm_compute in (digit_val c) in
          change (digit_val c) with v in *
        end; cbv iota beta in *; rewrite Hp; reflexivity. }
    destruct d; try congruence; rewrite Hs; f_equal;
      rewrite horner_of_uint; cbn [Z.of_int] in Hn; unfold Z.of_uint in Hn; lia.
Qed.
End Decimal.

(** * More on the directive pipeline *)

Section MorePipeline.
Import PyStr PyFormat Tk EXTurntable Schema Examples EXTurntableCallbacks.

(** X1: when the entries hold plain texts and the address text is an
    integer literal, the error list is the list of the messages of the
    invalid parameters, in the order of the schema, one entry for each
    invalid parameter. *)
Theorem X1_error_list_exact (s : screen) (n : Z) :
  plain_entries s ->
  py_int (var s i2c_address) = Some n ->
  exists a,
    validate s = OK a /\
    param_errors a = expected_errors s /\
    length (param_errors a) = invalid_count s.
Proof.
  intros _ Hn. destruct (validate_errors s n Hn) as (a & Ha & He).
  exists a. split; [exact Ha|]. split; [exact He|].
  rewrite He. apply length_expected_errors.
Qed.

Lemma X1_error_list_exact_witness :
  exists a,
    validate fresh = OK a /\
    param_errors a = expected_errors fresh /\
    length (param_errors a) = invalid_count fresh.
Proof.
  apply (X1_error_list_exact fresh 60);
    [intros v; destruct v|]; vm_compute; reflexivity.
Defined.

Lemma expected_errors_nil s :
  expected_errors s = [] <-> invalid_count s = 0%nat.
Proof.
  rewrite <- length_expected_errors.
  destruct (expected_errors s); cbn; split; congruence.
Qed.

(** X2: when the entries hold plain texts and the address text is an
    integer literal, the run requests the write of config.h exactly when no
    parameter is invalid; the file then holds the header followed by the
    directives, and otherwise the one thing the run does is to report the
    messages joined by ", ". *)
Theorem X2_written_iff_valid (fm : FileManager) (s : screen) (n : Z) :
  plain_entries s ->
  py_int (var s i2c_address) = Some n ->
  exists a effects,
    validate s = OK a /\
    generate_config fm s = OK effects /\
    ((exists path contents, In (WriteConfigFile path contents) effects)
     <-> invalid_count s = 0%nat) /\
    (forall path contents,
       In (WriteConfigFile path contents) effects ->
       path = get_filepath fm (ex_turntable_dir s) "config.h" /\
       contents = header s :: config_list a) /\
    (invalid_count s <> 0%nat ->
     effects = [ProcessError (join ", " (expected_errors s))]).
Proof.
  intros _ Hn. destruct (validate_errors s n Hn) as (a & Ha & He).
  exists a, (finish fm s a). split; [exact Ha|].
  split; [unfold generate_config; rewrite Ha; reflexivity|].
  split; [|split].
  - rewrite <- expected_errors_nil, <- He. split.
    + intros (path & contents & Hin). apply finish_write in Hin. tauto.
    + intros Hnil. unfold finish. rewrite Hnil. cbn. eauto.
  - intros path contents Hin.
    pose proof (finish_write fm s a path contents Hin) as [Hnil Hc].
    split; [|exact Hc].
    unfold finish in Hin. rewrite Hnil in Hin. cbn in Hin.
    destruct Hin as [Hin|[Hin|Hin]]; [discriminate Hin| |].
    + injection Hin as <- _. reflexivity.
    + repeat case_match; cbn in Hin; intuition discriminate.
  - intros Hne. rewrite <- expected_errors_nil, <- He in Hne.
    rewrite finish_errors by exact Hne. rewrite He. reflexivity.
Qed.

Lemma X2_written_iff_valid_witness :
  exists a effects,
    validate scenario = OK a /\
    generate_config fm_ok scenario = OK effects /\
    ((exists path contents, In (WriteConfigFile path contents) effects)
     <-> invalid_count scenario = 0%nat) /\
    (forall path contents,
       In (WriteConfigFile path contents) effects ->
       path = get_filepath fm_ok (ex_turntable_dir scenario) "config.h" /\
       contents = header scenario :: config_list a) /\
    (invalid_count scenario <> 0%nat ->
     effects = [ProcessError (join ", " (expected_errors scenario))]).
Proof.
  apply (X2_written_iff_valid fm_ok scenario 60);
    [intros v; destruct v|]; vm_compute; reflexivity.
Defined.

(** X3: when the entries hold plain texts and the address text is an
    integer literal, the run asks the root window for another view exactly
    when no parameter is invalid and the file manager returned the path of
    config.h; the view is advanced_config when the Edit Config switch is on
    and compile_upload otherwise, and the product passed is the one of the
    screen.  A failed write is reported with what the file manager
    returned. *)
Theorem X3_navigates_iff_written (fm : FileManager) (s : screen) (n : Z) :
  plain_entries s ->
  py_int (var s i2c_address) = Some n ->
  exists a effects,
    validate s = OK a /\
    generate_config fm s = OK effects /\
    let path := get_filepath fm (ex_turntable_dir s) "config.h" in
    let returned := write_config_file fm path (header s :: config_list a) in
    (forall view_class product,
       In (SwitchView view_class product) effects <->
       invalid_count s = 0%nat /\ returned = path /\
       view_class = (if String.eqb (sw s advanced_config_enabled) "on"
                     then "advanced_config" else "compile_upload") /\
       product = EXTurntable.product s) /\
    (invalid_count s = 0%nat -> returned <> path ->
     In (ProcessError ("Could not write config.h: " +:+ returned)) effects).
Proof.
  intros _ Hn. destruct (validate_errors s n Hn) as (a & Ha & He).
  exists a, (finish fm s a). split; [exact Ha|].
  split; [unfold generate_config; rewrite Ha; reflexivity|].
  assert (Hv : invalid_count s = 0%nat <-> param_errors a = [])
    by (rewrite <- expected_errors_nil, He; reflexivity).
  cbv zeta. unfold finish.
  change ([header s] ++ config_list a) with (header s :: config_list a).
  destruct (param_errors a) as [|e l] eqn:Hpe; cbn [length Nat.ltb Nat.leb].
  - destruct (String.eqb (write_config_file fm _ _) _) eqn:Hw; cbn [negb].
    + apply String.eqb_eq in Hw. split.
      * intros v p. destruct (String.eqb (sw s advanced_config_enabled) "on");
          cbn [In app]; (split;
                [ intros [H|[H|[H|[]]]]; try discriminate H;
                  injection H as <- <-; repeat split; tauto
                | intros (_ & _ & -> & ->); right; right; left; reflexivity ]).
      * intros _ Hne. contradiction.
    + apply String.eqb_neq in Hw. split.
      * intros v p. cbn [In app]. split.
        -- intros [H|[H|[H|[H|[]]]]]; discriminate H.
        -- intros (_ & Heq & _). contradiction.
      * intros _ _. cbn [In app]. auto.
  - split.
    + intros v p. cbn [In]. split.
      * intros [H|[]]. discriminate H.
      * intros (H & _). apply Hv in H. discriminate H.
    + intros H. apply Hv in H. discriminate H.
Qed.

Lemma X3_navigates_iff_written_witness :
  exists a effects,
    validate scenario = OK a /\
    generate_config fm_fail scenario = OK effects /\
    let path := get_filepath fm_fail (ex_turntable_dir scenario) "config.h" in
    let returned := write_config_file fm_fail path (header scenario :: config_list a) in
    (forall view_class product,
       In (SwitchView view_class product) effects <->
       invalid_count scenario = 0%nat /\ returned = path /\
       view_class = (if String.eqb (sw scenario advanced_config_enabled) "on"
                     then "advanced_config" else "compile_upload") /\
       product = EXTurntable.product scenario) /\
    (invalid_count scenario = 0%nat -> returned <> path ->
     In (ProcessError ("Could not write config.h: " +:+ returned)) effects).
Proof.
  apply (X3_navigates_iff_written fm_fail scenario 60);
    [intros v; destruct v|]; vm_compute; reflexivity.
Defined.

(** ** Lines: a property of every line the run can emit *)

Lemma lines_error (P : string -> Prop) msg a :
  Forall P (config_list a) -> Forall P (config_list (error msg a)).
Proof. exact id. Qed.

Lemma lines_emit (P : string -> Prop) line a :
  P line -> Forall P (config_list a) -> Forall P (config_list (emit line a)).
Proof.
  intros Hl Ha. rewrite emit_lines. apply Forall_app. split; [exact Ha|].
  repeat constructor. exact Hl.
Qed.

Ltac every_line pre solve_line :=
  repeat
    match goal with
    | |- Forall ?P (config_list (?f ?x)) =>
        cut (Forall P (config_list x));
        [ generalize x;
          let a := fresh "a" in
          let Ha := fresh "Ha" in
          intros a Ha;
          unfold gen_mode, gen_sensor_testing, gen_sensors_relay,
            gen_phase_angle, gen_stepper_driver, gen_disable_idle, gen_speed,
            gen_accel, gen_gearing, gen_invert, gen_rotate, gen_override,
            gen_debug;
          pre;
          repeat case_match;
          try congruence;
          repeat first
            [ apply lines_error
            | apply lines_emit; [solve_line|] ];
          exact Ha
        | ]
    end;
  repeat first
    [ apply lines_error
    | apply lines_emit; [solve_line|] ];
  try apply Forall_nil.

Ltac open_validate H :=
  unfold validate, gen_i2c_address in H;
  repeat case_match; try discriminate H;
  cbn [mbind result_bind rbind] in H;
  injection H as <-.

Lemma ends_with_nl_intro (prefix : string) :
  exists t, prefix +:+ nl = t +:+ nl.
Proof. exists prefix. reflexivity. Qed.

Lemma append_assoc3 (x y z : string) : x +:+ y +:+ z = (x +:+ y) +:+ z.
Proof.
  induction x as [|c x IH]; [reflexivity|].
  change (String c (x +:+ y +:+ z) = String c ((x +:+ y) +:+ z)).
  f_equal. exact IH.
Qed.

(** X4: whatever the entries hold, every line of the directive list starts
    with "#define " or "// #define " and ends with a line feed. *)
Theorem X4_every_line_is_a_define (s : screen) (a : acc) :
  validate s = OK a ->
  Forall (fun line => define_line line = true /\ exists t, line = t +:+ nl)
         (config_list a).
Proof.
  intros H. open_validate H.
  all: every_line idtac
         ltac:(split;
               [ reflexivity
               | first [ apply ends_with_nl_intro
                       | rewrite ?append_assoc3; apply ends_with_nl_intro ] ]).
Qed.

Lemma X4_every_line_is_a_define_witness :
  exists a,
    validate scenario = OK a /\
    Forall (fun line => define_line line = true /\ exists t, line = t +:+ nl)
           (config_list a).
Proof.
  eexists. split; [vm_compute; reflexivity|].
  apply (X4_every_line_is_a_define scenario). vm_compute; reflexivity.
Defined.

(** ** The switch callbacks and the run *)

Lemma sw_on_other w w' f s :
  w <> w' -> sw (on_switch w f s) w' = sw s w'.
Proof.
  intros Hne. unfold sw, on_switch. cbn. rewrite fn_lookup_alter_ne by exact Hne.
  reflexivity.
Qed.

Lemma sw_state_on_other w w' f s :
  w <> w' -> sw_state (on_switch w f s) w' = sw_state s w'.
Proof.
  intros Hne. unfold sw_state, on_switch. cbn.
  rewrite fn_lookup_alter_ne by exact Hne. reflexivity.
Qed.

Lemma sw_deselect w s : sw (on_switch w deselect s) w = offvalue (switches s w).
Proof. unfold sw, on_switch. cbn. rewrite fn_lookup_alter. reflexivity. Qed.

(** No entry of the error list is a message of a parameter that is valid. *)
Lemma valid_no_error s a p e :
  invalid s p = false -> validate s = OK a ->
  In e (param_errors a) -> ~ In e (messages p).
Proof.
  intros Hv H Hin Hp. rewrite (validate_errors_of s a H) in Hin.
  apply in_flat_map in Hin as (q & _ & Hq).
  destruct (decide (q = p)) as [->|Hne].
  - unfold report in Hq. rewrite Hv in Hq. destruct Hq.
  - exact (messages_disjoint q p e Hne (report_in_messages s q e Hq) Hp).
Qed.

(** X5: after [set_forward_only] the reverse only switch is off, and a run
    emits no active ROTATE_REVERSE_ONLY line; after [set_reverse_only] the
    same holds for forward.  (The off value of a switch is not "on".) *)
Theorem X5_rotation_switches_exclusive (s : screen) :
  offvalue (switches s forward_only_switch) <> "on" ->
  offvalue (switches s reverse_only_switch) <> "on" ->
  (sw (set_forward_only s) reverse_only_switch <> "on" /\
   forall a, validate (set_forward_only s) = OK a ->
             ~ In ("#define ROTATE_REVERSE_ONLY" +:+ nl) (config_list a)) /\
  (sw (set_reverse_only s) forward_only_switch <> "on" /\
   forall a, validate (set_reverse_only s) = OK a ->
             ~ In ("#define ROTATE_FORWARD_ONLY" +:+ nl) (config_list a)).
Proof.
  intros Hf Hr.
  assert (Hoff_r : sw (set_forward_only s) reverse_only_switch <> "on").
  { unfold set_forward_only.
    destruct (String.eqb (sw s reverse_only_switch) "on") eqn:E.
    - rewrite sw_deselect. exact Hr.
    - apply String.eqb_neq. exact E. }
  assert (Hoff_f : sw (set_reverse_only s) forward_only_switch <> "on").
  { unfold set_reverse_only.
    destruct (String.eqb (sw s forward_only_switch) "on") eqn:E.
    - rewrite sw_deselect. exact Hf.
    - apply String.eqb_neq. exact E. }
  split; (split; [assumption|]).
  - intros a H Hin. apply String.eqb_neq in Hoff_r.
    revert Hin. generalize dependent (set_forward_only s). intros s' Hoff H.
    assert (Hall : Forall (fun line => line <> "#define ROTATE_REVERSE_ONLY" +:+ nl)
                          (config_list a)).
    { open_validate H.
      all: every_line ltac:(rewrite ?Hoff) ltac:(discriminate). }
    rewrite Forall_forall in Hall. intros Hin. exact (Hall _ Hin eq_refl).
  - intros a H Hin. apply String.eqb_neq in Hoff_f.
    revert Hin. generalize dependent (set_reverse_only s). intros s' Hoff H.
    assert (Hall : Forall (fun line => line <> "#define ROTATE_FORWARD_ONLY" +:+ nl)
                          (config_list a)).
    { open_validate H.
      all: every_line ltac:(rewrite ?Hoff) ltac:(discriminate). }
    rewrite Forall_forall in Hall. intros Hin. exact (Hall _ Hin eq_refl).
Qed.

(** X6: right after [set_mode], whatever the mode, neither rotation switch
    can break the traverser rule: a run reports neither of the two
    "Traverser mode is incompatible ..." messages. *)
Theorem X6_set_mode_clears_rotation_conflict (s : screen) (a : acc) :
  validate (set_mode s) = OK a ->
  ~ In "Traverser mode is incompatible with forward only rotation" (param_errors a) /\
  ~ In "Traverser mode is incompatible with reverse only rotation" (param_errors a).
Proof.
  intros H.
  assert (Hv : invalid (set_mode s) ForwardOnly = false /\
               invalid (set_mode s) ReverseOnly = false).
  { unfold set_mode.
    destruct (String.eqb (sw s mode_switch) "TURNTABLE") eqn:Hm.
    - apply String.eqb_eq in Hm. cbn [invalid].
      rewrite !sw_on_other by discriminate. rewrite Hm.
      rewrite !andb_false_r. split; reflexivity.
    - cbn [invalid editable]. unfold sw_state, on_switch. cbn.
      rewrite ?fn_lookup_alter, ?fn_lookup_alter_ne by discriminate.
      rewrite ?fn_lookup_alter. cbn. split; reflexivity. }
  destruct Hv as [Hf Hr]. split; intros Hin.
  - apply (valid_no_error _ _ ForwardOnly _ Hf H Hin). left. reflexivity.
  - apply (valid_no_error _ _ ReverseOnly _ Hr H Hin). left. reflexivity.
Qed.

(** ** The version gate *)

Lemma version_before_numbers fm version major minor patch m s :
  version_before m
    (s |> set_product_version_name version |> get_steppers fm
       |> store_version (Some major) (Some minor) patch)
  = OK ((major =? 0) && (minor <? m)).
Proof.
  unfold version_before. destruct patch; cbn; destruct major; reflexivity.
Qed.

(** The gates after a call with a major and a minor number. *)
Lemma version_gates (fm : FileManager) (version : option string)
    (major minor : Z) (patch : option Z) (s : screen) :
  exists s',
    set_product_version fm version (Some major) (Some minor) patch s = OK s' /\
    editable s' Gearing = negb ((major =? 0) && (minor <? 6)) /\
    (forall p, In p [InvertDirection; InvertStep; InvertEnable;
                     ForwardOnly; ReverseOnly] ->
               editable s' p = negb ((major =? 0) && (minor <? 7))) /\
    ((major =? 0) && (minor <? 6) = true -> var s' gearing = "1") /\
    ((major =? 0) && (minor <? 7) = true ->
     forall w, In w [invert_dir_switch; invert_step_switch; invert_enable_switch;
                     forward_only_switch; reverse_only_switch] ->
               check_state (switches s' w) = false).
Proof.
  unfold set_product_version.
  rewrite version_before_numbers. cbn [mbind result_bind rbind].
  assert (Hb7 : forall s0 : screen,
             product_major_version s0 = Some major ->
             product_minor_version s0 = Some minor ->
             version_before 7 s0 = OK ((major =? 0) && (minor <? 7))).
  { intros s0 H1 H2. unfold version_before. rewrite H1, H2.
    destruct major; reflexivity. }
  destruct ((major =? 0) && (minor <? 6)) eqn:H6;
    (rewrite Hb7 by (destruct patch; reflexivity));
    cbn [mbind result_bind rbind];
    destruct ((major =? 0) && (minor <? 7)) eqn:H7;
    (eexists; split; [reflexivity|]);
    (split; [reflexivity|]);
    (split; [intros p Hp; cbn in Hp;
             repeat (destruct Hp as [<-|Hp]; [reflexivity|]); destruct Hp|]);
    (split; [intros Hc; try discriminate Hc; reflexivity|]);
    intros Hc; try discriminate Hc;
    intros w Hw; cbn in Hw;
    repeat (destruct Hw as [<-|Hw]; [reflexivity|]); destruct Hw.
Qed.

(** X7: when the hook receives a major and a minor number it succeeds; the
    gearing entry is left editable unless the version is 0.x with x < 6, and
    the five switches unless it is 0.x with x < 7; the patch number plays no
    part.  When the gearing gate closes, the gearing factor is put back to
    1; when the switch gate closes, the five switches are switched off. *)
Theorem X7_version_thresholds (fm : FileManager) (version : option string)
    (major minor : Z) (patch : option Z) (s : screen) :
  exists s',
    set_product_version fm version (Some major) (Some minor) patch s = OK s' /\
    editable s' Gearing = negb ((major =? 0) && (minor <? 6)) /\
    (forall p, In p [InvertDirection; InvertStep; InvertEnable;
                     ForwardOnly; ReverseOnly] ->
               editable s' p = negb ((major =? 0) && (minor <? 7))) /\
    ((major =? 0) && (minor <? 6) = true -> var s' gearing = "1") /\
    ((major =? 0) && (minor <? 7) = true ->
     forall w, In w [invert_dir_switch; invert_step_switch; invert_enable_switch;
                     forward_only_switch; reverse_only_switch] ->
               check_state (switches s' w) = false).
Proof. apply version_gates. Qed.

(** X8: a major number 0 without a minor number, on a screen that has no
    minor number stored, makes the hook raise TypeError at the comparison
    [self.product_minor_version < 6]. *)
Theorem X8_major_zero_without_minor (fm : FileManager) (version : option string)
    (patch : option Z) (s : screen) :
  product_minor_version s = None ->
  set_product_version fm version (Some 0) None patch s = Raise TypeError.
Proof.
  intros Hm. unfold set_product_version, version_before. cbn. rewrite Hm.
  reflexivity.
Qed.

Lemma X8_major_zero_without_minor_witness :
  set_product_version fm_ok (Some "v0") (Some 0) None None scenario = Raise TypeError.
Proof. apply (X8_major_zero_without_minor fm_ok (Some "v0") None scenario). reflexivity. Defined.

(** X9: the numbers of an earlier call stay when the hook is called without
    a major number: the version name is replaced, but the gates are set from
    the numbers stored before, so a version without numbers chosen after a
    0.x version keeps the gates of that version. *)
Theorem X9_gates_follow_stored_numbers (fm : FileManager) (version : option string)
    (minor patch : option Z) (s : screen) (major0 minor0 : Z) :
  product_major_version s = Some major0 ->
  product_minor_version s = Some minor0 ->
  exists s',
    set_product_version fm version None minor patch s = OK s' /\
    product_version_name s' = version /\
    product_major_version s' = Some major0 /\
    product_minor_version s' = Some minor0 /\
    product_patch_version s' = product_patch_version s /\
    editable s' Gearing = negb ((major0 =? 0) && (minor0 <? 6)) /\
    editable s' ForwardOnly = negb ((major0 =? 0) && (minor0 <? 7)).
Proof.
  intros H1 H2. unfold set_product_version.
  assert (Hb : forall m (s0 : screen),
             product_major_version s0 = Some major0 ->
             product_minor_version s0 = Some minor0 ->
             version_before m s0 = OK ((major0 =? 0) && (minor0 <? m))).
  { intros m s0 E1 E2. unfold version_before. rewrite E1, E2.
    destruct major0; reflexivity. }
  cbn [store_version]. rewrite (Hb 6) by assumption.
  cbn [mbind result_bind rbind].
  destruct ((major0 =? 0) && (minor0 <? 6)) eqn:H6;
    rewrite (Hb 7) by assumption; cbn [mbind result_bind rbind];
    destruct ((major0 =? 0) && (minor0 <? 7)) eqn:H7;
    (eexists; split; [reflexivity|]); cbn; rewrite ?H1, ?H2; repeat split.
Qed.

Lemma X9_gates_follow_stored_numbers_witness :
  exists s',
    set_product_version fm_ok (Some "main") None None None scenario_0_5_0 = OK s' /\
    product_version_name s' = Some "main" /\
    product_major_version s' = Some 0 /\
    product_minor_version s' = Some 5 /\
    product_patch_version s' = product_patch_version scenario_0_5_0 /\
    editable s' Gearing = negb ((0 =? 0) && (5 <? 6)) /\
    editable s' ForwardOnly = negb ((0 =? 0) && (5 <? 7)).
Proof.
  apply (X9_gates_follow_stored_numbers fm_ok (Some "main") None None
           scenario_0_5_0 0 5); reflexivity.
Defined.

Lemma alter_keeps {A} (g : CTkSwitch -> A) (f : CTkSwitch -> CTkSwitch)
    (k : switch_id) (m : switch_id -> CTkSwitch) (w : switch_id) :
  (forall x, g (f x) = g x) -> g (alter f k m w) = g (m w).
Proof.
  intros Hg. destruct (decide (k = w)) as [<-|Hne].
  - rewrite fn_lookup_alter. apply Hg.
  - rewrite fn_lookup_alter_ne by exact Hne. reflexivity.
Qed.

(** X10: the hook changes nothing the user has entered except what the
    gates cover: every text but the gearing factor, the stepper driver and
    every switch but the five gated ones are as before, the gearing factor
    is as before or 1, and no switch changes its on and off values. *)
Theorem X10_version_hook_keeps_entries (fm : FileManager) (version : option string)
    (major minor patch : option Z) (s s' : screen) :
  set_product_version fm version major minor patch s = OK s' ->
  (forall v, v <> gearing -> var s' v = var s v) /\
  (var s' gearing = var s gearing \/ var s' gearing = "1") /\
  stepper_combo s' = stepper_combo s /\
  (forall w, ~ In w [invert_dir_switch; invert_step_switch; invert_enable_switch;
                     forward_only_switch; reverse_only_switch] ->
             switches s' w = switches s w) /\
  (forall w, onvalue (switches s' w) = onvalue (switches s w) /\
             offvalue (switches s' w) = offvalue (switches s w)).
Proof.
  unfold set_product_version.
  set (s0 := s |> set_product_version_name version |> get_steppers fm
               |> store_version major minor patch).
  assert (H0 : vars s0 = vars s /\ stepper_combo s0 = stepper_combo s /\
               switches s0 = switches s).
  { subst s0. destruct major, minor, patch; repeat split. }
  destruct H0 as (Hv & Hc & Hs).
  destruct (version_before 6 s0) as [b6|] eqn:E6; [|discriminate].
  cbn [mbind result_bind rbind].
  match goal with
  | |- context [version_before 7 ?x] =>
      destruct (version_before 7 x) as [b7|] eqn:E7; [|discriminate]
  end.
  cbn [mbind result_bind rbind]. intros H. injection H as <-.
  repeat split.
  - intros v Hne. destruct b6, b7; unfold var; cbn; rewrite ?Hv;
      try reflexivity; apply fn_lookup_insert_ne; congruence.
  - destruct b6, b7; unfold var; cbn; rewrite ?Hv; auto.
  - destruct b6, b7; cbn; exact Hc.
  - intros w Hw. cbn in Hw.
    destruct b6, b7; cbn; rewrite ?Hs; try reflexivity;
      rewrite !fn_lookup_alter_ne by tauto; reflexivity.
  - destruct b6, b7; cbn; rewrite ?Hs; try reflexivity;
      rewrite !(alter_keeps onvalue) by (intros []; reflexivity); reflexivity.
  - destruct b6, b7; cbn; rewrite ?Hs; try reflexivity;
      rewrite !(alter_keeps offvalue) by (intros []; reflexivity); reflexivity.
Qed.

Lemma X10_version_hook_keeps_entries_witness :
  (forall v, v <> gearing -> var scenario_0_5_0 v = var scenario v) /\
  (var scenario_0_5_0 gearing = var scenario gearing \/
   var scenario_0_5_0 gearing = "1") /\
  stepper_combo scenario_0_5_0 = stepper_combo scenario /\
  (forall w, ~ In w [invert_dir_switch; invert_step_switch; invert_enable_switch;
                     forward_only_switch; reverse_only_switch] ->
             switches scenario_0_5_0 w = switches scenario w) /\
  (forall w, onvalue (switches scenario_0_5_0 w) = onvalue (switches scenario w) /\
             offvalue (switches scenario_0_5_0 w) = offvalue (switches scenario w)).
Proof.
  apply (X10_version_hook_keeps_entries fm_ok (Some "v0.5.0-Prod")
           (Some 0) (Some 5) (Some 0) scenario scenario_0_5_0).
  vm_compute; reflexivity.
Defined.


Lemma X5_rotation_switches_exclusive_witness :
  (sw (set_forward_only reverse_on) reverse_only_switch <> "on" /\
   forall a, validate (set_forward_only reverse_on) = OK a ->
             ~ In ("#define ROTATE_REVERSE_ONLY" +:+ nl) (config_list a)) /\
  (sw (set_reverse_only reverse_on) forward_only_switch <> "on" /\
   forall a, validate (set_reverse_only reverse_on) = OK a ->
             ~ In ("#define ROTATE_FORWARD_ONLY" +:+ nl) (config_list a)).
Proof.
  apply (X5_rotation_switches_exclusive reverse_on);
    vm_compute; discriminate.
Defined.

Lemma X6_set_mode_clears_rotation_conflict_witness :
  exists a,
    validate (set_mode (on_switch mode_switch select reverse_on)) = OK a /\
    ~ In "Traverser mode is incompatible with forward only rotation" (param_errors a) /\
    ~ In "Traverser mode is incompatible with reverse only rotation" (param_errors a).
Proof.
  eexists. split; [vm_compute; reflexivity|].
  apply (X6_set_mode_clears_rotation_conflict
           (on_switch mode_switch select reverse_on)).
  vm_compute; reflexivity.
Defined.


(** X24: with the phase switch on manual the angle is not looked at: a run
    reports no phase angle error and emits no PHASE_SWITCH_ANGLE line,
    whatever the angle entry holds, and [set_phase_switching] has the entry
    disabled. *)
Theorem X24_manual_phase_ignores_angle (s : screen) (a : acc) :
  sw s auto_switch <> "AUTO" ->
  validate s = OK a ->
  ~ In "Phase switch angle must be between 0 and 180" (param_errors a) /\
  Forall (fun line => directive_of "PHASE_SWITCH_ANGLE" line = false)
         (config_list a) /\
  entry_state (set_phase_switching s) phase_angle_entry = disabled.
Proof.
  intros Hauto H. apply String.eqb_neq in Hauto. split; [|split].
  - intros Hin.
    apply (valid_no_error s a PhaseAngle _ ltac:(cbn [invalid]; rewrite Hauto; reflexivity)
             H Hin).
    left. reflexivity.
  - open_validate H.
    all: every_line ltac:(rewrite ?Hauto) ltac:(vm_compute; reflexivity).
  - unfold set_phase_switching. rewrite Hauto. reflexivity.
Qed.

Lemma X24_manual_phase_ignores_angle_witness :
  exists a,
    validate manual_phase = OK a /\
    ~ In "Phase switch angle must be between 0 and 180" (param_errors a) /\
    Forall (fun line => directive_of "PHASE_SWITCH_ANGLE" line = false)
           (config_list a) /\
    entry_state (set_phase_switching manual_phase) phase_angle_entry = disabled.
Proof.
  eexists. split; [vm_compute; reflexivity|].
  apply (X24_manual_phase_ignores_angle manual_phase).
  - vm_compute; discriminate.
  - vm_compute; reflexivity.
Defined.

End MorePipeline.

(** * The address buttons *)

Section AddressButtons.
Import PyStr PyFormat Tk EXTurntable Schema Examples EXTurntableCallbacks.

Lemma var_set_same v x s : var (var_set v x s) v = x.
Proof. unfold var, var_set. cbn. apply fn_lookup_insert. Qed.

Lemma var_set_other v v' x s : v <> v' -> var (var_set v x s) v' = var s v'.
Proof. intros H. unfold var, var_set. cbn. apply fn_lookup_insert_ne. exact H. Qed.

Lemma address_set n s : address (var_set i2c_address (py_str n) s) = Some n.
Proof. unfold address. rewrite var_set_same. apply py_int_str. Qed.

Lemma invalid_address s n :
  address s = Some n -> invalid s I2cAddress = (n <? 8) || (77 <? n).
Proof. unfold address. intros H. cbn [invalid]. unfold out_of_range. rewrite H. reflexivity. Qed.

(** What [validate_i2c_address] does to a screen whose address is the
    number [n]. *)
Lemma validate_i2c_address_spec s n :
  address s = Some n ->
  exists s' calls,
    validate_i2c_address s = OK (s', calls) /\
    address s' = Some (clamp n) /\
    (s' = s \/ s' = var_set i2c_address (py_str (clamp n)) s) /\
    (clamp n = n -> s' = s) /\
    (forall before,
       next_enabled_after calls before = (8 <=? n) && (n <=? 77)) /\
    (In (process_error i2c_message) calls <-> n < 8 \/ 77 < n).
Proof.
  intros Hn. unfold validate_i2c_address. unfold address in Hn. rewrite Hn.
  unfold clamp.
  destruct (n <? 8) eqn:H8; [|destruct (77 <? n) eqn:H77].
  - apply Z.ltb_lt in H8.
    replace (Z.max 8 (Z.min 77 n)) with 8 by lia.
    eexists _, _. split; [reflexivity|]. split; [apply address_set|].
    split; [right; reflexivity|]. split; [lia|]. split.
    + intros before. cbn. symmetry. apply andb_false_iff. left. apply Z.leb_gt. lia.
    + cbn. split; [left; exact H8 | auto].
  - apply Z.ltb_lt in H77.
    replace (Z.max 8 (Z.min 77 n)) with 77 by lia.
    eexists _, _. split; [reflexivity|]. split; [apply address_set|].
    split; [right; reflexivity|]. split; [lia|]. split.
    + intros before. cbn. symmetry. apply andb_false_iff. right. apply Z.leb_gt. lia.
    + cbn. split; [right; exact H77 | auto].
  - apply Z.ltb_ge in H8, H77.
    replace (Z.max 8 (Z.min 77 n)) with n by lia.
    eexists _, _. split; [reflexivity|]. split; [exact Hn|].
    split; [left; reflexivity|]. split; [reflexivity|]. split.
    + intros before. cbn. symmetry. apply andb_true_iff. split; apply Z.leb_le; lia.
    + cbn. split; [intros [H|[H|[H|[]]]]; discriminate H | lia].
Qed.

(** X12: on a plain address text, [validate_i2c_address] raises ValueError
    when the text is not an integer literal; otherwise it returns, the
    address is the number clamped to 8..77 (so the address test of
    [generate_config] passes), the other entries are untouched, the message
    is shown exactly when the number was outside 8..77, and the Next button
    ends up enabled exactly when it was inside. *)
Theorem X12_validate_i2c_address_clamps (s : screen) :
  plain (var s i2c_address) = true ->
  match address s with
  | None => validate_i2c_address s = Raise ValueError
  | Some n =>
      exists s' calls,
        validate_i2c_address s = OK (s', calls) /\
        address s' = Some (clamp n) /\
        invalid s' I2cAddress = false /\
        (forall v, v <> i2c_address -> var s' v = var s v) /\
        switches s' = switches s /\
        stepper_combo s' = stepper_combo s /\
        (forall before,
           next_enabled_after calls before = (8 <=? n) && (n <=? 77)) /\
        (In (process_error i2c_message) calls <-> n < 8 \/ 77 < n)
  end.
Proof.
  intros _. destruct (address s) as [n|] eqn:Hn.
  - destruct (validate_i2c_address_spec s n Hn)
      as (s' & calls & Hv & Ha & Hs & _ & Hnext & Hmsg).
    exists s', calls. split; [exact Hv|]. split; [exact Ha|].
    split; [rewrite (invalid_address s' _ Ha); unfold clamp;
            apply orb_false_iff; split; [apply Z.ltb_ge|apply Z.ltb_ge]; lia|].
    split; [|split; [|split; [|split; assumption]]].
    + intros v Hne. destruct Hs as [->| ->]; [reflexivity|].
      apply var_set_other. congruence.
    + destruct Hs as [->| ->]; reflexivity.
    + destruct Hs as [->| ->]; reflexivity.
  - unfold validate_i2c_address. unfold address in Hn. rewrite Hn. reflexivity.
Qed.

Lemma X12_validate_i2c_address_clamps_witness :
  validate_i2c_address scenario_hex_address = Raise ValueError /\
  exists s' calls,
    validate_i2c_address (var_set i2c_address "100" scenario)
    = OK (s', calls) /\
    address s' = Some (clamp 100) /\
    invalid s' I2cAddress = false /\
    (forall v, v <> i2c_address ->
       var s' v = var (var_set i2c_address "100" scenario) v) /\
    switches s' = switches (var_set i2c_address "100" scenario) /\
    stepper_combo s' = stepper_combo (var_set i2c_address "100" scenario) /\
    (forall before,
       next_enabled_after calls before = (8 <=? 100) && (100 <=? 77)) /\
    (In (process_error i2c_message) calls <-> 100 < 8 \/ 77 < 100).
Proof.
  split.
  - exact (X12_validate_i2c_address_clamps scenario_hex_address eq_refl).
  - exact (X12_validate_i2c_address_clamps
             (var_set i2c_address "100" scenario) eq_refl).
Defined.

Lemma increment_address_spec s n :
  address s = Some n ->
  exists s' calls,
    increment_address s = OK (s', calls) /\
    address s' = Some (clamp (n + 1)) /\
    (forall v, v <> i2c_address -> var s' v = var s v) /\
    (forall before,
       next_enabled_after calls before = (7 <=? n) && (n <=? 77)).
Proof.
  intros Hn. unfold increment_address. unfold address in Hn. rewrite Hn.
  destruct (n <? 77) eqn:H77.
  - apply Z.ltb_lt in H77.
    destruct (validate_i2c_address_spec
                (var_set i2c_address (py_str (n + 1)) s) (n + 1)
                (address_set (n + 1) s))
      as (s' & calls & Hv & Ha & Hs & _ & Hnext & _).
    exists s', calls. split; [exact Hv|]. split; [exact Ha|]. split.
    + intros v Hne. destruct Hs as [->| ->];
        rewrite ?var_set_other by congruence; reflexivity.
    + intros before. rewrite Hnext.
      destruct (8 <=? n + 1) eqn:E1, (7 <=? n) eqn:E2,
               (n + 1 <=? 77) eqn:E3, (n <=? 77) eqn:E4; try reflexivity; lia.
  - apply Z.ltb_ge in H77.
    destruct (validate_i2c_address_spec s n Hn)
      as (s' & calls & Hv & Ha & Hs & _ & Hnext & _).
    exists s', calls. split; [exact Hv|].
    split; [rewrite Ha; f_equal; unfold clamp; lia|]. split.
    + intros v Hne. destruct Hs as [->| ->];
        rewrite ?var_set_other by congruence; reflexivity.
    + intros before. rewrite Hnext.
      destruct (8 <=? n) eqn:E1, (7 <=? n) eqn:E2; try reflexivity; lia.
Qed.

Lemma decrement_address_spec s n :
  address s = Some n ->
  exists s' calls,
    decrement_address s = OK (s', calls) /\
    address s' = Some (clamp (n - 1)) /\
    (forall v, v <> i2c_address -> var s' v = var s v) /\
    (forall before,
       next_enabled_after calls before = (8 <=? n) && (n <=? 78)).
Proof.
  intros Hn. unfold decrement_address. unfold address in Hn. rewrite Hn.
  destruct (8 <? n) eqn:H8.
  - apply Z.ltb_lt in H8.
    destruct (validate_i2c_address_spec
                (var_set i2c_address (py_str (n - 1)) s) (n - 1)
                (address_set (n - 1) s))
      as (s' & calls & Hv & Ha & Hs & _ & Hnext & _).
    exists s', calls. split; [exact Hv|]. split; [exact Ha|]. split.
    + intros v Hne. destruct Hs as [->| ->];
        rewrite ?var_set_other by congruence; reflexivity.
    + intros before. rewrite Hnext.
      destruct (8 <=? n - 1) eqn:E1, (8 <=? n) eqn:E2,
               (n - 1 <=? 77) eqn:E3, (n <=? 78) eqn:E4; try reflexivity; lia.
  - apply Z.ltb_ge in H8.
    destruct (validate_i2c_address_spec s n Hn)
      as (s' & calls & Hv & Ha & Hs & _ & Hnext & _).
    exists s', calls. split; [exact Hv|].
    split; [rewrite Ha; f_equal; unfold clamp; lia|]. split.
    + intros v Hne. destruct Hs as [->| ->];
        rewrite ?var_set_other by congruence; reflexivity.
    + intros before. rewrite Hnext.
      destruct (8 <=? n) eqn:E1, (n <=? 77) eqn:E3, (n <=? 78) eqn:E4;
        try reflexivity; lia.
Qed.

(** X13: on a plain address text, the two address buttons raise ValueError
    when the text is not an integer literal; otherwise the plus button
    leaves the address at n + 1 clamped to 8..77 and the minus button at
    n - 1 clamped to 8..77: whatever the number was, the address is inside
    8..77 afterwards, the plus button does not go beyond 77 and the minus
    button not below 8.  The other entries are untouched. *)
Theorem X13_address_buttons_stay_in_range (s : screen) :
  plain (var s i2c_address) = true ->
  match address s with
  | None =>
      increment_address s = Raise ValueError /\
      decrement_address s = Raise ValueError
  | Some n =>
      (exists s' calls,
         increment_address s = OK (s', calls) /\
         address s' = Some (clamp (n + 1)) /\
         8 <= clamp (n + 1) <= 77 /\
         (forall v, v <> i2c_address -> var s' v = var s v)) /\
      (exists s' calls,
         decrement_address s = OK (s', calls) /\
         address s' = Some (clamp (n - 1)) /\
         8 <= clamp (n - 1) <= 77 /\
         (forall v, v <> i2c_address -> var s' v = var s v))
  end.
Proof.
  intros _. destruct (address s) as [n|] eqn:Hn.
  - split.
    + destruct (increment_address_spec s n Hn) as (s' & calls & H1 & H2 & H3 & _).
      exists s', calls. repeat split; try assumption; unfold clamp; lia.
    + destruct (decrement_address_spec s n Hn) as (s' & calls & H1 & H2 & H3 & _).
      exists s', calls. repeat split; try assumption; unfold clamp; lia.
  - unfold increment_address, decrement_address. unfold address in Hn.
    rewrite Hn. split; reflexivity.
Qed.

Lemma X13_address_buttons_stay_in_range_witness :
  (increment_address scenario_hex_address = Raise ValueError /\
   decrement_address scenario_hex_address = Raise ValueError) /\
  (exists s' calls,
     increment_address (var_set i2c_address "77" scenario) = OK (s', calls) /\
     address s' = Some (clamp (77 + 1)) /\
     8 <= clamp (77 + 1) <= 77 /\
     (forall v, v <> i2c_address ->
        var s' v = var (var_set i2c_address "77" scenario) v)) /\
  (exists s' calls,
     decrement_address (var_set i2c_address "77" scenario) = OK (s', calls) /\
     address s' = Some (clamp (77 - 1)) /\
     8 <= clamp (77 - 1) <= 77 /\
     (forall v, v <> i2c_address ->
        var s' v = var (var_set i2c_address "77" scenario) v)).
Proof.
  split.
  - exact (X13_address_buttons_stay_in_range scenario_hex_address eq_refl).
  - exact (X13_address_buttons_stay_in_range
             (var_set i2c_address "77" scenario) eq_refl).
Defined.

(** X14: on a plain address text, for an address from 8 to 76 the plus
    button followed by the minus button gives the address back, and for an
    address from 9 to 77 so does the minus button followed by the plus
    button; at 77 the plus button and at 8 the minus button leave the
    address where it is. *)
Theorem X14_address_buttons_round_trip (s : screen) (n : Z) :
  plain (var s i2c_address) = true ->
  address s = Some n ->
  8 <= n <= 77 ->
  (exists s1 calls1 s2 calls2,
     increment_address s = OK (s1, calls1) /\
     decrement_address s1 = OK (s2, calls2) /\
     address s2 = Some (if n =? 77 then 76 else n)) /\
  (exists s1 calls1 s2 calls2,
     decrement_address s = OK (s1, calls1) /\
     increment_address s1 = OK (s2, calls2) /\
     address s2 = Some (if n =? 8 then 9 else n)) /\
  (n = 77 -> exists s1 calls1,
     increment_address s = OK (s1, calls1) /\ address s1 = Some 77) /\
  (n = 8 -> exists s1 calls1,
     decrement_address s = OK (s1, calls1) /\ address s1 = Some 8).
Proof.
  intros _ Hn Hr.
  destruct (increment_address_spec s n Hn) as (i1 & ci1 & Hi1 & Hai1 & _).
  destruct (decrement_address_spec s n Hn) as (d1 & cd1 & Hd1 & Had1 & _).
  destruct (decrement_address_spec i1 _ Hai1) as (i2 & ci2 & Hi2 & Hai2 & _).
  destruct (increment_address_spec d1 _ Had1) as (d2 & cd2 & Hd2 & Had2 & _).
  repeat split.
  - exists i1, ci1, i2, ci2. repeat split; try assumption.
    rewrite Hai2. f_equal. unfold clamp.
    destruct (n =? 77) eqn:E; [apply Z.eqb_eq in E|apply Z.eqb_neq in E]; lia.
  - exists d1, cd1, d2, cd2. repeat split; try assumption.
    rewrite Had2. f_equal. unfold clamp.
    destruct (n =? 8) eqn:E; [apply Z.eqb_eq in E|apply Z.eqb_neq in E]; lia.
  - intros ->. exists i1, ci1. split; [assumption|]. rewrite Hai1. reflexivity.
  - intros ->. exists d1, cd1. split; [assumption|]. rewrite Had1. reflexivity.
Qed.

(** X15: the Next button is no guard for the stepper driver, on a screen
    whose entries hold plain texts.  With no
    driver chosen [check_stepper] disables the button, but a valid address
    that is validated afterwards (on leaving the entry, or through one of
    the address buttons) enables it again and changes nothing else; a run
    started then reports "You must select a stepper driver" and writes no
    file. *)
Theorem X15_next_button_does_not_guard_stepper (fm : FileManager) (s : screen)
    (n : Z) :
  plain_entries s ->
  stepper_combo s = "Select stepper driver" ->
  address s = Some n ->
  8 <= n <= 77 ->
  exists calls a,
    check_stepper (stepper_combo s) = [disable_next] /\
    validate_i2c_address s = OK (s, calls) /\
    next_enabled_after (check_stepper (stepper_combo s) ++ calls) true = true /\
    validate s = OK a /\
    In "You must select a stepper driver" (param_errors a) /\
    generate_config fm s = OK [ProcessError (join ", " (param_errors a))].
Proof.
  intros _ Hc Hn Hr.
  destruct (validate_i2c_address_spec s n Hn)
    as (s' & calls & Hv & _ & _ & Hsame & Hnext & _).
  rewrite (Hsame ltac:(unfold clamp; lia)) in Hv.
  destruct (validate_errors s n Hn) as (a & Ha & He).
  assert (Hin : In "You must select a stepper driver" (param_errors a)).
  { rewrite He. apply in_flat_map. exists StepperDriver. split.
    - unfold parameters. cbn. tauto.
    - unfold report, message. cbn [invalid text_of]. rewrite Hc. left. reflexivity. }
  exists calls, a. split; [rewrite Hc; reflexivity|]. split; [exact Hv|].
  split.
  - unfold next_enabled_after. rewrite fold_left_app.
    match goal with
    | |- fold_left ?f calls ?b = true =>
        change (next_enabled_after calls b = true)
    end.
    rewrite Hnext. apply andb_true_iff; split; apply Z.leb_le; lia.
  - split; [exact Ha|]. split; [exact Hin|].
    unfold generate_config. rewrite Ha. cbn [mbind result_bind rbind].
    f_equal. apply finish_errors. intros Hnil. rewrite Hnil in Hin. destruct Hin.
Qed.

Lemma X15_next_button_does_not_guard_stepper_witness :
  exists calls a,
    check_stepper (stepper_combo fresh) = [disable_next] /\
    validate_i2c_address fresh = OK (fresh, calls) /\
    next_enabled_after (check_stepper (stepper_combo fresh) ++ calls) true = true /\
    validate fresh = OK a /\
    In "You must select a stepper driver" (param_errors a) /\
    generate_config fm_ok fresh = OK [ProcessError (join ", " (param_errors a))].
Proof.
  apply (X15_next_button_does_not_guard_stepper fm_ok fresh 60).
  - intros v; destruct v; vm_compute; reflexivity.
  - reflexivity.
  - vm_compute; reflexivity.
  - lia.
Defined.

Lemma X14_address_buttons_round_trip_witness :
  ((exists s1 calls1 s2 calls2,
      increment_address (var_set i2c_address "77" scenario) = OK (s1, calls1) /\
      decrement_address s1 = OK (s2, calls2) /\
      address s2 = Some (if 77 =? 77 then 76 else 77)) /\
   (exists s1 calls1 s2 calls2,
      decrement_address (var_set i2c_address "77" scenario) = OK (s1, calls1) /\
      increment_address s1 = OK (s2, calls2) /\
      address s2 = Some (if 77 =? 8 then 9 else 77)) /\
   (77 = 77 -> exists s1 calls1,
      increment_address (var_set i2c_address "77" scenario) = OK (s1, calls1) /\ address s1 = Some 77) /\
   (77 = 8 -> exists s1 calls1,
      decrement_address (var_set i2c_address "77" scenario) = OK (s1, calls1) /\ address s1 = Some 8)) /\
  ((exists s1 calls1 s2 calls2,
      increment_address (var_set i2c_address "8" scenario) = OK (s1, calls1) /\
      decrement_address s1 = OK (s2, calls2) /\
      address s2 = Some (if 8 =? 77 then 76 else 8)) /\
   (exists s1 calls1 s2 calls2,
      decrement_address (var_set i2c_address "8" scenario) = OK (s1, calls1) /\
      increment_address s1 = OK (s2, calls2) /\
      address s2 = Some (if 8 =? 8 then 9 else 8)) /\
   (8 = 77 -> exists s1 calls1,
      increment_address (var_set i2c_address "8" scenario) = OK (s1, calls1) /\ address s1 = Some 77) /\
   (8 = 8 -> exists s1 calls1,
      decrement_address (var_set i2c_address "8" scenario) = OK (s1, calls1) /\ address s1 = Some 8)).
Proof.
  split.
  - apply (X14_address_buttons_round_trip
             (var_set i2c_address "77" scenario) 77);
      [vm_compute; reflexivity | vm_compute; reflexivity | lia].
  - apply (X14_address_buttons_round_trip
             (var_set i2c_address "8" scenario) 8);
      [vm_compute; reflexivity | vm_compute; reflexivity | lia].
Defined.

End AddressButtons.

(** * More on the view switcher *)

Section MoreNavigation.
Import EXInstaller Window.

(** The path for an id that is not cached, in one equation. *)
Lemma switch_view_fresh self view_class product version cls :
  truthy view_class = true ->
  frames self !! view_class = None ->
  views self !! view_class = Some cls ->
  (has_set_product_version cls = true -> truthy_opt version = true) ->
  exists self',
    switch_view view_class product version self = (OK (), self') /\
    views self' = views self /\
    frames self' = <[view_class := next_id self]> (frames self) /\
    view self' = Some (next_id self) /\
    next_id self' = S (next_id self) /\
    events self' = events self ++ [Grid (next_id self)] /\
    obj_class (heap self' (next_id self)) = cls /\
    obj_product (heap self' (next_id self))
    = (if String.eqb view_class "compile_upload" ||
          String.eqb view_class "select_version_config"
       then Some product else init_product cls) /\
    obj_version (heap self' (next_id self))
    = (if has_set_product_version cls
       then (fun d => (version, d)) <$> version_details version else None) /\
    forall l, l <> next_id self -> heap self' l = heap self l.
Proof.
  intros Htruthy Hcached Hviews Hhook.
  unfold switch_view. rewrite Htruthy, Hcached, Hviews.
  unfold construct, hasattr_set_product_version. cbn.
  destruct (String.eqb view_class "compile_upload" ||
            String.eqb view_class "select_version_config") eqn:Hp; cbn;
    rewrite ?fn_lookup_alter, ?fn_lookup_insert; cbn;
    destruct (has_set_product_version cls) eqn:Hh.
  all: try (assert (Hd : exists d, version_details version = Some d)
              by (specialize (Hhook eq_refl); destruct version as [v|];
                  [|discriminate Hhook]; cbn in Hhook |- *; rewrite Hhook; eauto);
            destruct Hd as [d Hd]; rewrite Hd).
  all: eexists; split; [reflexivity|]; cbn;
    rewrite ?fn_lookup_alter, ?fn_lookup_insert; cbn;
    repeat split;
    intros l Hne;
    rewrite ?fn_lookup_alter_ne by congruence;
    rewrite ?fn_lookup_insert_ne by congruence; reflexivity.
Qed.

(** The path for a cached id that is built again, in one equation. *)
Lemma switch_view_recreate self view_class product version cls cached :
  truthy view_class = true ->
  frames self !! view_class = Some cached ->
  recreate view_class product (calling_product self) = true ->
  views self !! view_class = Some cls ->
  (has_set_product_version cls = true -> truthy_opt version = true) ->
  exists self',
    switch_view view_class product version self = (OK (), self') /\
    views self' = views self /\
    frames self' = <[view_class := next_id self]> (frames self) /\
    view self' = Some (next_id self) /\
    next_id self' = S (next_id self) /\
    events self' = events self ++ [Destroy cached; Grid (next_id self)] /\
    obj_class (heap self' (next_id self)) = cls /\
    obj_product (heap self' (next_id self)) = Some product /\
    obj_version (heap self' (next_id self))
    = (if has_set_product_version cls
       then (fun d => (version, d)) <$> version_details version else None) /\
    forall l, l <> next_id self -> heap self' l = heap self l.
Proof.
  intros Htruthy Hcached Hrec Hviews Hhook.
  unfold switch_view. rewrite Htruthy, Hcached, Hrec. cbn. rewrite Hviews.
  unfold construct, hasattr_set_product_version. cbn.
  rewrite ?fn_lookup_alter, ?fn_lookup_insert; cbn;
    destruct (has_set_product_version cls) eqn:Hh.
  all: try (assert (Hd : exists d, version_details version = Some d)
              by (specialize (Hhook eq_refl); destruct version as [v|];
                  [|discriminate Hhook]; cbn in Hhook |- *; rewrite Hhook; eauto);
            destruct Hd as [d Hd]; rewrite Hd).
  all: eexists; split; [reflexivity|]; cbn;
    rewrite ?fn_lookup_alter, ?fn_lookup_insert; cbn;
    rewrite <- ?app_assoc; cbn;
    repeat split;
    intros l Hne;
    rewrite ?fn_lookup_alter_ne by congruence;
    rewrite ?fn_lookup_insert_ne by congruence; reflexivity.
Qed.

(** ** The invariant *)

Lemma well_formed_insert_fresh self self' view_class :
  well_formed self ->
  is_Some (views self !! view_class) ->
  views self' = views self ->
  frames self' = <[view_class := next_id self]> (frames self) ->
  view self' = Some (next_id self) ->
  next_id self' = S (next_id self) ->
  well_formed self'.
Proof.
  intros (Hreg & Hlt & Hinj & _) Hcls Hv Hf Hview Hn.
  unfold well_formed, cache_registered. rewrite Hv, Hf, Hview, Hn.
  split; [|split; [|split]].
  - intros k. destruct (decide (view_class = k)) as [<-|Hne].
    + intros _. exact Hcls.
    + rewrite lookup_insert_ne by exact Hne. apply Hreg.
  - intros k l. destruct (decide (view_class = k)) as [<-|Hne].
    + rewrite lookup_insert_eq. intros [= <-]. lia.
    + rewrite lookup_insert_ne by exact Hne. intros H. apply Hlt in H. lia.
  - intros k1 k2 l.
    destruct (decide (view_class = k1)) as [<-|Hne1];
      destruct (decide (view_class = k2)) as [<-|Hne2];
      rewrite ?lookup_insert_eq, ?lookup_insert_ne by assumption.
    + reflexivity.
    + intros [= <-] H. apply Hlt in H. lia.
    + intros H [= <-]. apply Hlt in H. lia.
    + apply Hinj.
  - exists view_class. apply lookup_insert_eq.
Qed.

Lemma switch_view_well_formed view_class product version self :
  well_formed self ->
  well_formed (switch_view view_class product version self).2.
Proof.
  intros Hwf. pose proof Hwf as (Hreg & Hlt & Hinj & Hview).
  unfold switch_view.
  destruct (truthy view_class); [|exact Hwf].
  destruct (frames self !! view_class) as [cached|] eqn:Hcached.
  - destruct (recreate view_class product (calling_product self)).
    + cbn. destruct (views self !! view_class) as [cls|] eqn:Hcls.
      * unfold construct. cbn.
        repeat case_match; cbn;
          (eapply (well_formed_insert_fresh self); [exact Hwf| | | | |];
           [rewrite Hcls; eauto|reflexivity|reflexivity|reflexivity|reflexivity]).
      * cbn. split; [exact Hreg|]. split; [exact Hlt|]. split; [exact Hinj|].
        exists view_class. exact Hcached.
    + cbn. repeat case_match; cbn;
        (split; [exact Hreg|]; split; [exact Hlt|]; split; [exact Hinj|];
         exists view_class; exact Hcached).
  - destruct (views self !! view_class) as [cls|] eqn:Hcls; [|exact Hwf].
    unfold construct. cbn.
    repeat case_match; cbn;
      (eapply (well_formed_insert_fresh self); [exact Hwf| | | | |];
       [rewrite Hcls; eauto|reflexivity|reflexivity|reflexivity|reflexivity]).
Qed.

(** X16: in every window the application can reach, every cached id is
    registered, every cached instance has been built before, two ids never
    share an instance, and the active view is one of the cached instances
    (there is no active view only while the cache is empty); this holds also
    after a call that raised. *)
Theorem X16_window_invariant (reg : gmap string class_info) (self : installer) :
  reachable reg self -> well_formed self.
Proof.
  induction 1 as [|self vc product version _ IH].
  - split; [|split; [|split]]; cbn.
    + intros k [l Hl]. cbn in Hl. rewrite lookup_empty in Hl. discriminate Hl.
    + intros k l Hl. rewrite lookup_empty in Hl. discriminate Hl.
    + intros k1 k2 l Hl. rewrite lookup_empty in Hl. discriminate Hl.
    + reflexivity.
  - apply switch_view_well_formed. exact IH.
Qed.

Lemma X16_window_invariant_witness : well_formed compile_upload_active.
Proof.
  apply (X16_window_invariant registry).
  repeat apply reach_switch. apply reach_empty.
Defined.

(** X17: a request for a registered id that is not cached, with a version
    whenever the class has the version hook, succeeds: a new instance is
    built, cached under the id, made the active view and put on the grid;
    it gets the product only for compile_upload and select_version_config,
    gets the version only if its class has the hook, and no other instance
    changes. *)
Theorem X17_first_visit_builds_view (self : installer) (view_class : string)
    (product version : option string) (cls : class_info) :
  truthy view_class = true ->
  frames self !! view_class = None ->
  views self !! view_class = Some cls ->
  (has_set_product_version cls = true -> truthy_opt version = true) ->
  exists self',
    switch_view view_class product version self = (OK (), self') /\
    frames self' = <[view_class := next_id self]> (frames self) /\
    view self' = Some (next_id self) /\
    next_id self' = S (next_id self) /\
    events self' = events self ++ [Grid (next_id self)] /\
    obj_class (heap self' (next_id self)) = cls /\
    obj_product (heap self' (next_id self))
    = (if String.eqb view_class "compile_upload" ||
          String.eqb view_class "select_version_config"
       then Some product else init_product cls) /\
    obj_version (heap self' (next_id self))
    = (if has_set_product_version cls
       then (fun d => (version, d)) <$> version_details version else None) /\
    forall l, l <> next_id self -> heap self' l = heap self l.
Proof.
  intros H1 H2 H3 H4.
  destruct (switch_view_fresh self view_class product version cls H1 H2 H3 H4)
    as (self' & Hs & _ & Hrest).
  exists self'. split; [exact Hs | exact Hrest].
Qed.

Lemma X17_first_visit_builds_view_witness :
  exists self',
    switch_view "ex_commandstation" (Some "ex_commandstation")
      (Some "v5.0.7-Prod") version_config_active = (OK (), self') /\
    frames self' = <["ex_commandstation" := next_id version_config_active]>
                     (frames version_config_active) /\
    view self' = Some (next_id version_config_active) /\
    next_id self' = S (next_id version_config_active) /\
    events self' = events version_config_active ++
                   [Grid (next_id version_config_active)] /\
    obj_class (heap self' (next_id version_config_active))
    = product_class "EXCommandStation" true /\
    obj_product (heap self' (next_id version_config_active))
    = (if String.eqb "ex_commandstation" "compile_upload" ||
          String.eqb "ex_commandstation" "select_version_config"
       then Some (Some "ex_commandstation")
       else init_product (product_class "EXCommandStation" true)) /\
    obj_version (heap self' (next_id version_config_active))
    = (if has_set_product_version (product_class "EXCommandStation" true)
       then (fun d => (Some "v5.0.7-Prod", d)) <$>
            version_details (Some "v5.0.7-Prod") else None) /\
    forall l, l <> next_id version_config_active ->
              heap self' l = heap version_config_active l.
Proof.
  apply (X17_first_visit_builds_view version_config_active "ex_commandstation"
           (Some "ex_commandstation") (Some "v5.0.7-Prod")
           (product_class "EXCommandStation" true)).
  - reflexivity.
  - vm_compute; reflexivity.
  - vm_compute; reflexivity.
  - reflexivity.
Defined.

(** X18: compile_upload is built again on every request for it, and
    select_version_config whenever the requested product differs from the
    product of the active view: the cached instance is destroyed, a new one
    takes its place in the cache, becomes the active view and is put on the
    grid; it has the requested product and only the version of this
    request, so nothing of the old instance is carried over. *)
Theorem X18_rebuilt_views (self : installer) (view_class : string)
    (product version : option string) (cls : class_info) (cached : loc) :
  view_class = "compile_upload" \/
  (view_class = "select_version_config" /\ product <> calling_product self) ->
  frames self !! view_class = Some cached ->
  views self !! view_class = Some cls ->
  (has_set_product_version cls = true -> truthy_opt version = true) ->
  exists self',
    switch_view view_class product version self = (OK (), self') /\
    frames self' = <[view_class := next_id self]> (frames self) /\
    view self' = Some (next_id self) /\
    events self' = events self ++ [Destroy cached; Grid (next_id self)] /\
    obj_product (heap self' (next_id self)) = Some product /\
    obj_version (heap self' (next_id self))
    = (if has_set_product_version cls
       then (fun d => (version, d)) <$> version_details version else None) /\
    forall l, l <> next_id self -> heap self' l = heap self l.
Proof.
  intros Hwhich Hcached Hviews Hhook.
  assert (Htruthy : truthy view_class = true)
    by (destruct Hwhich as [->|[-> _]]; reflexivity).
  assert (Hrec : recreate view_class product (calling_product self) = true).
  { destruct Hwhich as [->|[-> Hne]]; [reflexivity|].
    unfold recreate. cbn. apply negb_true_iff, bool_decide_eq_false. exact Hne. }
  destruct (switch_view_recreate self view_class product version cls cached
              Htruthy Hcached Hrec Hviews Hhook)
    as (self' & Hs & _ & Hf & Hv & _ & He & _ & Hp & Hver & Hheap).
  exists self'. repeat split; assumption.
Qed.

Lemma X18_rebuilt_views_witness :
  exists self',
    switch_view "compile_upload" (Some "ex_commandstation") None
      compile_upload_active = (OK (), self') /\
    frames self' = <["compile_upload" := next_id compile_upload_active]>
                     (frames compile_upload_active) /\
    view self' = Some (next_id compile_upload_active) /\
    events self' = events compile_upload_active ++
                   [Destroy 3%nat; Grid (next_id compile_upload_active)] /\
    obj_product (heap self' (next_id compile_upload_active))
    = Some (Some "ex_commandstation") /\
    obj_version (heap self' (next_id compile_upload_active))
    = (if has_set_product_version (product_class "CompileUpload" false)
       then (fun d => (None, d)) <$> version_details None else None) /\
    forall l, l <> next_id compile_upload_active ->
              heap self' l = heap compile_upload_active l.
Proof.
  apply (X18_rebuilt_views compile_upload_active "compile_upload"
           (Some "ex_commandstation") None (product_class "CompileUpload" false)
           3%nat).
  - left. reflexivity.
  - vm_compute; reflexivity.
  - vm_compute; reflexivity.
  - intros H. discriminate H.
Defined.

(** X19: a call never changes the data of an instance other than the one
    it raises or builds: every instance that exists and is not the cached
    instance of the requested id is as before, and so is the cached instance
    itself when it is destroyed and replaced.  This holds also when the call
    raises. *)
Theorem X19_other_views_keep_their_data (self : installer) (view_class : string)
    (product version : option string) (l : loc) :
  (l < next_id self)%nat ->
  frames self !! view_class <> Some l \/
  recreate view_class product (calling_product self) = true ->
  heap (switch_view view_class product version self).2 l = heap self l.
Proof.
  intros Hlt Hother. unfold switch_view.
  destruct (truthy view_class); [|reflexivity].
  destruct (frames self !! view_class) as [cached|] eqn:Hcached.
  - destruct (recreate view_class product (calling_product self)) eqn:Hrec.
    + cbn. destruct (views self !! view_class) as [cls|]; [|reflexivity].
      unfold construct. cbn. repeat case_match; cbn;
        rewrite ?fn_lookup_alter_ne by lia;
        rewrite ?fn_lookup_insert_ne by lia; reflexivity.
    + destruct Hother as [Hne|Hrec']; [|discriminate Hrec'].
      assert (Hcl : cached <> l) by congruence.
      cbn. repeat case_match; cbn;
        rewrite ?fn_lookup_alter_ne by exact Hcl; reflexivity.
  - destruct (views self !! view_class) as [cls|]; [|reflexivity].
    unfold construct. cbn. repeat case_match; cbn;
      rewrite ?fn_lookup_alter_ne by lia;
      rewrite ?fn_lookup_insert_ne by lia; reflexivity.
Qed.

Lemma X19_other_views_keep_their_data_witness :
  heap (switch_view "compile_upload" (Some "ex_commandstation") None
          compile_upload_active).2 2%nat
  = heap compile_upload_active 2%nat.
Proof.
  apply (X19_other_views_keep_their_data compile_upload_active "compile_upload"
           (Some "ex_commandstation") None 2%nat).
  - vm_compute. lia.
  - right. reflexivity.
Defined.

(** X20: the UnboundLocalError of a first visit without version leaves the
    new instance behind: it is already cached and the active view, but it was
    never put on the grid and never got a version.  The same request again
    (for an id other than compile_upload) then finds it in the cache and
    succeeds by raising it, still without a version. *)
Theorem X20_retry_after_unbound_version (self : installer) (view_class : string)
    (product version : option string) (cls : class_info) :
  truthy view_class = true ->
  view_class <> "compile_upload" ->
  truthy_opt version = false ->
  frames self !! view_class = None ->
  views self !! view_class = Some cls ->
  has_set_product_version cls = true ->
  let first := switch_view view_class product version self in
  let second := switch_view view_class product version first.2 in
  first.1 = Raise UnboundLocalError /\
  frames first.2 !! view_class = Some (next_id self) /\
  view first.2 = Some (next_id self) /\
  events first.2 = events self /\
  second.1 = OK () /\
  view second.2 = Some (next_id self) /\
  events second.2 = events self ++ [Tkraise (next_id self)] /\
  obj_version (heap second.2 (next_id self)) = None.
Proof.
  intros Htruthy Hcu Hversion Hcached Hviews Hhook first second.
  assert (Hdetails : version_details version = None).
  { unfold version_details, truthy_opt in *.
    destruct version as [v|]; [rewrite Hversion|]; reflexivity. }
  assert (Hcu' : String.eqb view_class "compile_upload" = false)
    by (apply String.eqb_neq; exact Hcu).
  assert (Hfirst : exists s1,
             first = (Raise UnboundLocalError, s1) /\
             frames s1 = <[view_class := next_id self]> (frames self) /\
             view s1 = Some (next_id self) /\
             events s1 = events self /\
             obj_version (heap s1 (next_id self)) = None /\
             obj_class (heap s1 (next_id self)) = cls /\
             (String.eqb view_class "select_version_config" = true ->
              obj_product (heap s1 (next_id self)) = Some product)).
  { subst first. unfold switch_view.
    rewrite Htruthy, Hdetails, Hcached, Hviews. unfold construct. cbn.
    rewrite Hcu'. cbn.
    destruct (String.eqb view_class "select_version_config") eqn:Hs;
      unfold hasattr_set_product_version; cbn;
      rewrite ?fn_lookup_alter, fn_lookup_insert; cbn; rewrite Hhook;
      (eexists; split; [reflexivity|]; cbn;
       rewrite ?fn_lookup_alter, fn_lookup_insert; cbn;
       repeat split; intros H; discriminate H). }
  destruct Hfirst as (s1 & Hf & Hfr & Hv & He & Hver & Hcls & Hprod).
  assert (Hc1 : frames s1 !! view_class = Some (next_id self))
    by (rewrite Hfr; apply lookup_insert_eq).
  assert (Hrec : recreate view_class product (calling_product s1) = false).
  { unfold recreate. rewrite Hcu'. cbn.
    destruct (String.eqb view_class "select_version_config") eqn:Hs; [|reflexivity].
    cbn. apply negb_false_iff, bool_decide_eq_true.
    unfold calling_product. rewrite Hv, (Hprod eq_refl). reflexivity. }
  destruct (switch_view_reuse s1 view_class product version (next_id self)
              Htruthy Hc1 Hrec)
    as (s2 & Hs2 & _ & _ & Hv2 & _ & He2 & Hh2).
  subst second. rewrite Hf. cbn [fst snd]. rewrite Hs2. cbn [fst snd].
  repeat split; try assumption.
  - rewrite He2, He. reflexivity.
  - rewrite Hh2, fn_lookup_alter. unfold reinject. rewrite Hdetails.
    destruct (String.eqb view_class "select_version_config"); exact Hver.
Qed.

Lemma X20_retry_after_unbound_version_witness :
  let self := version_config_active in
  let first := switch_view "ex_commandstation" (Some "ex_commandstation") None self in
  let second := switch_view "ex_commandstation" (Some "ex_commandstation") None first.2 in
  first.1 = Raise UnboundLocalError /\
  frames first.2 !! "ex_commandstation" = Some (next_id self) /\
  view first.2 = Some (next_id self) /\
  events first.2 = events self /\
  second.1 = OK () /\
  view second.2 = Some (next_id self) /\
  events second.2 = events self ++ [Tkraise (next_id self)] /\
  obj_version (heap second.2 (next_id self)) = None.
Proof.
  apply (X20_retry_after_unbound_version version_config_active "ex_commandstation"
           (Some "ex_commandstation") None (product_class "EXCommandStation" true)).
  - reflexivity.
  - discriminate.
  - reflexivity.
  - vm_compute; reflexivity.
  - vm_compute; reflexivity.
  - reflexivity.
Defined.

(** X21: after a call for a non-empty id that returned without raising,
    the cached instance of that id is the active view, and the last thing
    done on screen is to show it: it was raised, or put on the grid when it
    was built (after the old instance was destroyed, if there was one). *)
Theorem X21_success_shows_requested_view (self : installer) (view_class : string)
    (product version : option string) :
  truthy view_class = true ->
  (switch_view view_class product version self).1 = OK () ->
  exists l,
    frames (switch_view view_class product version self).2 !! view_class = Some l /\
    view (switch_view view_class product version self).2 = Some l /\
    (events (switch_view view_class product version self).2
     = events self ++ [Tkraise l] \/
     events (switch_view view_class product version self).2
     = events self ++ [Grid l] \/
     exists old,
       frames self !! view_class = Some old /\
       events (switch_view view_class product version self).2
       = events self ++ [Destroy old; Grid l]).
Proof.
  intros Htruthy. unfold switch_view. rewrite Htruthy.
  destruct (frames self !! view_class) as [cached|] eqn:Hcached.
  - destruct (recreate view_class product (calling_product self)).
    + cbn. destruct (views self !! view_class) as [cls|]; [|discriminate].
      unfold construct. cbn. repeat case_match; cbn; try discriminate;
        intros _; exists (next_id self);
        (split; [apply lookup_insert_eq|]); (split; [reflexivity|]);
        right; right; exists cached; rewrite <- app_assoc; split; reflexivity.
    + cbn. repeat case_match; cbn; intros _; exists cached;
        (split; [exact Hcached|]); (split; [reflexivity|]); left; reflexivity.
  - destruct (views self !! view_class) as [cls|]; [|discriminate].
    unfold construct. cbn. repeat case_match; cbn; try discriminate;
      intros _; exists (next_id self);
      (split; [apply lookup_insert_eq|]); (split; [reflexivity|]);
      right; left; reflexivity.
Qed.

Lemma X21_success_shows_requested_view_witness :
  exists l,
    frames (switch_view "welcome" None None compile_upload_active).2 !! "welcome"
    = Some l /\
    view (switch_view "welcome" None None compile_upload_active).2 = Some l /\
    (events (switch_view "welcome" None None compile_upload_active).2
     = events compile_upload_active ++ [Tkraise l] \/
     events (switch_view "welcome" None None compile_upload_active).2
     = events compile_upload_active ++ [Grid l] \/
     exists old,
       frames compile_upload_active !! "welcome" = Some old /\
       events (switch_view "welcome" None None compile_upload_active).2
       = events compile_upload_active ++ [Destroy old; Grid l]).
Proof.
  apply (X21_success_shows_requested_view compile_upload_active "welcome" None None).
  - reflexivity.
  - vm_compute; reflexivity.
Defined.

End MoreNavigation.

(** * The product page *)

Section ProductPage.
Import EXInstaller Window SelectProduct.

Lemma py_in_In x l : py_in x l = true <-> In x l.
Proof.
  unfold py_in. rewrite existsb_exists. split.
  - intros (y & Hy & He). apply String.eqb_eq in He. subst. exact Hy.
  - intros H. exists x. split; [exact H|apply String.eqb_refl].
Qed.

(** X22: with the product table of product_details.py,
    [check_product_device] raises KeyError for every product other than
    ex_commandstation; for ex_commandstation it asks for
    select_version_config with the product exactly when the fqbn of the
    board is one of the seven supported ones, and otherwise shows the
    message that names the board and the product and asks for nothing. *)
Theorem X22_check_product_device (device_fqbn device_name product : string) :
  (product <> "ex_commandstation" ->
   check_product_device product_details device_fqbn device_name product
   = Raise KeyError) /\
  (product = "ex_commandstation" ->
   exists effects,
     check_product_device product_details device_fqbn device_name product
     = OK effects /\
     (forall view_class p,
        In (EXTurntable.SwitchView view_class p) effects <->
        In device_fqbn
           ["arduino:avr:uno"; "arduino:avr:nano";
            "arduino:avr:nano:cpu=atmega328"; "arduino:avr:mega";
            "esp32:esp32:esp32";
            "STMicroelectronics:stm32:Nucleo_64:pnum=NUCLEO_F411RE";
            "STMicroelectronics:stm32:Nucleo_64:pnum=NUCLEO_F446RE"] /\
        view_class = "select_version_config" /\ p = "ex_commandstation") /\
     (forall message,
        In (EXTurntable.ProcessError message) effects <->
        ~ In device_fqbn
            ["arduino:avr:uno"; "arduino:avr:nano";
             "arduino:avr:nano:cpu=atmega328"; "arduino:avr:mega";
             "esp32:esp32:esp32";
             "STMicroelectronics:stm32:Nucleo_64:pnum=NUCLEO_F411RE";
             "STMicroelectronics:stm32:Nucleo_64:pnum=NUCLEO_F446RE"] /\
        message = "Device type " +:+ device_name +:+
                  " is not supported for use with EX-CommandStation" +:+
                  PyStr.nl +:+
                  "Return to the Select Device screen and select a supported device")).
Proof.
  split.
  - intros Hne. unfold check_product_device, product_details.
    rewrite lookup_singleton_ne by congruence. reflexivity.
  - intros ->. unfold check_product_device, product_details.
    rewrite lookup_singleton_eq. cbn [supported_devices product_name].
    match goal with
    | |- context [py_in device_fqbn ?l] =>
        pose proof (py_in_In device_fqbn l) as Hin;
        destruct (py_in device_fqbn l)
    end; cbn [negb]; eexists; (split; [reflexivity|]); split.
    + intros v p. split.
      * intros [H|[]]. injection H as <- <-. split; [apply Hin; reflexivity|auto].
      * intros (_ & -> & ->). left. reflexivity.
    + intros m. split.
      * intros [H|[]]. discriminate H.
      * intros (Hn & _). exfalso. apply Hn, Hin. reflexivity.
    + intros v p. split.
      * intros [H|[H|[]]]; discriminate H.
      * intros (H & _). apply Hin in H. discriminate H.
    + intros m. split.
      * intros [H|[H|[]]]; [|discriminate H]. injection H as <-.
        split; [|reflexivity]. intros H. apply Hin in H. discriminate H.
      * intros (_ & ->). left. reflexivity.
Qed.

(** X23: the product page never has a product of its own ([SelectProduct]
    sets [product] to [None] and nothing assigns it), so when it is the
    active view and a supported board is selected, the request it sends
    builds the version page again if there is one in the cache: the cached
    page is destroyed and a new one with the chosen product is put on the
    grid.  (The class of the version page has no version hook here; with one
    the request, which carries no version, raises as in C9.) *)
Theorem X23_product_choice_rebuilds_version_page (pd : gmap string details)
    (d : details) (device_fqbn device_name product : string)
    (self : installer) (page cached : loc) (cls : class_info) :
  pd !! product = Some d ->
  In device_fqbn (supported_devices d) ->
  view self = Some page ->
  obj_product (heap self page) = Some None ->
  frames self !! "select_version_config" = Some cached ->
  views self !! "select_version_config" = Some cls ->
  has_set_product_version cls = false ->
  exists request self',
    check_product_device pd device_fqbn device_name product = OK [request] /\
    deliver request self = (OK (), self') /\
    frames self' !! "select_version_config" = Some (next_id self) /\
    view self' = Some (next_id self) /\
    events self' = events self ++ [Destroy cached; Grid (next_id self)] /\
    obj_product (heap self' (next_id self)) = Some (Some product).
Proof.
  intros Hpd Hin Hview Hprod Hcached Hviews Hhook.
  assert (Hcall : calling_product self = None)
    by (unfold calling_product; rewrite Hview, Hprod; reflexivity).
  destruct (switch_view_recreate self "select_version_config" (Some product)
              None cls cached eq_refl Hcached)
    as (self' & Hs & _ & Hf & Hv & _ & He & _ & Hp & _).
  - unfold recreate. rewrite Hcall. reflexivity.
  - exact Hviews.
  - rewrite Hhook. discriminate.
  - exists (EXTurntable.SwitchView "select_version_config" product), self'.
    split.
    + unfold check_product_device. rewrite Hpd.
      apply py_in_In in Hin. rewrite Hin. reflexivity.
    + split; [exact Hs|]. split; [rewrite Hf; apply lookup_insert_eq|].
      repeat split; assumption.
Qed.

Lemma X23_product_choice_rebuilds_version_page_witness :
  exists request self',
    check_product_device product_details "arduino:avr:mega" "Arduino Mega"
      "ex_commandstation" = OK [request] /\
    deliver request back_on_product_page = (OK (), self') /\
    frames self' !! "select_version_config" = Some (next_id back_on_product_page) /\
    view self' = Some (next_id back_on_product_page) /\
    events self' = events back_on_product_page ++
                   [Destroy 2%nat; Grid (next_id back_on_product_page)] /\
    obj_product (heap self' (next_id back_on_product_page))
    = Some (Some "ex_commandstation").
Proof.
  eapply (X23_product_choice_rebuilds_version_page product_details _
            "arduino:avr:mega" "Arduino Mega" "ex_commandstation"
            back_on_product_page 1%nat 2%nat
            (product_class "SelectVersionConfig" false)).
  - vm_compute; reflexivity.
  - cbn. tauto.
  - vm_compute; reflexivity.
  - vm_compute; reflexivity.
  - vm_compute; reflexivity.
  - vm_compute; reflexivity.
  - reflexivity.
Defined.

End ProductPage.

(** * The order of the lines *)

Section LineOrder.
Import PyStr PyFormat Tk EXTurntable Schema Examples EXTurntableCallbacks.

Lemma ranked_weaken k K a : ranked k a -> (k <= K)%nat -> ranked K a.
Proof.
  intros [Hs Hf] Hk. split; [exact Hs|].
  eapply Forall_impl; [|exact Hf]. cbv beta. intros line Hl. lia.
Qed.

Lemma ranked_error k K msg a : ranked k a -> (k <= K)%nat -> ranked K (error msg a).
Proof. intros H Hk. exact (ranked_weaken k K a H Hk). Qed.

Lemma StronglySorted_snoc (l : list nat) (x : nat) :
  StronglySorted lt l -> Forall (fun y => (y < x)%nat) l ->
  StronglySorted lt (l ++ [x]).
Proof.
  induction l as [|y l IH]; intros Hs Hf.
  - repeat constructor.
  - apply StronglySorted_inv in Hs as [Hs Hy]. 
    apply Forall_cons_iff in Hf as [Hyx Hf]. cbn. constructor.
    + apply IH; assumption.
    + apply Forall_app. split; [exact Hy|]. repeat constructor. exact Hyx.
Qed.

Lemma ranked_emit k K line a :
  ranked k a -> (k <= line_rank line)%nat -> (S (line_rank line) <= K)%nat ->
  ranked K (emit line a).
Proof.
  intros [Hs Hf] Hlow Hup. unfold ranked. rewrite emit_lines. split.
  - rewrite map_app. change (map line_rank [line]) with [line_rank line].
    apply StronglySorted_snoc; [exact Hs|].
    apply Forall_forall. intros y Hy. apply in_map_iff in Hy as (l & <- & Hl).
    rewrite Forall_forall in Hf. specialize (Hf l Hl). cbv beta in Hf. lia.
  - apply Forall_app. split.
    + eapply Forall_impl; [|exact Hf]. cbv beta. intros l Hl. lia.
    + repeat constructor. lia.
Qed.

Ltac side :=
  lazymatch goal with
  | |- (_ <= ?K)%nat =>
      first [is_evar K; apply le_n | vm_compute; lia]
  end.

Ltac ranked_expr Ha :=
  lazymatch goal with
  | |- ranked _ (emit _ _) =>
      eapply ranked_emit; [ranked_expr Ha | side | side]
  | |- ranked _ (error _ _) =>
      eapply ranked_error; [ranked_expr Ha | side]
  | |- ranked _ _ =>
      first [exact Ha | eapply ranked_weaken; [exact Ha | side]]
  end.

Ltac step k :=
  match goal with
  | |- ranked ?K (?f ?x) =>
      cut (ranked k x);
      [ generalize x;
        let a := fresh "a" in
        let Ha := fresh "Ha" in
        intros a Ha;
        unfold gen_mode, gen_sensor_testing, gen_sensors_relay,
          gen_phase_angle, gen_stepper_driver, gen_disable_idle, gen_speed,
          gen_accel, gen_gearing, gen_invert, gen_rotate, gen_override,
          gen_debug;
        repeat case_match;
        ranked_expr Ha
      | ]
  end.

Lemma validate_ranked s a : validate s = OK a -> ranked 25 a.
Proof.
  intros H.
  unfold validate, gen_i2c_address in H;
  repeat case_match; try discriminate H;
  cbn [mbind result_bind rbind] in H;
  injection H as <-.
  all: step 24%nat; step 23%nat; step 22%nat; step 21%nat; step 20%nat;
    step 19%nat; step 18%nat; step 17%nat; step 16%nat; step 15%nat;
    step 14%nat; step 13%nat; step 12%nat; step 11%nat; step 10%nat;
    step 9%nat; step 8%nat; step 7%nat; step 3%nat; step 2%nat; step 1%nat.
  - eapply ranked_error; [|apply Nat.le_0_l]. split; constructor.
  - eapply ranked_emit with (k := 0%nat); [split; constructor| |]; vm_compute; lia.
Qed.

(** X25: every line of the directive list is a directive of a parameter of
    the schema, and the lines come in the order of the schema with at most
    one line for each parameter, whatever the entries hold and whatever the
    user did in which order. *)
Theorem X25_lines_in_schema_order (s : screen) (a : acc) :
  validate s = OK a ->
  StronglySorted lt (map line_rank (config_list a)) /\
  Forall (fun line => (line_rank line < length parameters)%nat) (config_list a).
Proof. intros H. exact (validate_ranked s a H). Qed.

Lemma X25_lines_in_schema_order_witness :
  exists a,
    validate scenario = OK a /\
    StronglySorted lt (map line_rank (config_list a)) /\
    Forall (fun line => (line_rank line < length parameters)%nat) (config_list a).
Proof.
  eexists. split; [vm_compute; reflexivity|].
  apply (X25_lines_in_schema_order scenario). vm_compute; reflexivity.
Defined.

End LineOrder.
